(** * JarvisBrowser: the browser lifecycle manager of [browser.py]

    A shallow embedding of class [Browser] (connection-strategy
    selection, Edge discovery, profile copy, teardown) and the properties
    of it that the specification states.

    Modelling conventions.
    - Every call that leaves the Python process (the automation engine,
      [requests], [subprocess], the file system, [tempfile], the logger,
      [gc]) is an [event] appended to a trace; what the outside answers
      is read from a [World], a record of oracles that see the trace so
      far, so that the same probe can be refused first and answered later.
    - Methods are computations in a state-and-exception monad [M] over the
      object's attributes and the trace.  Attribute updates made before an
      exception is raised persist, as they do in Python.
    - [exn] covers the subclasses of [Exception] raised by the code and
      by its collaborators; each collaborator raises exceptions of its
      own class.  [BaseException]-only signals (task cancellation,
      keyboard interrupt) are outside the model.
    - [await] is sequential: one manager instance has one control flow.
    - [self.temp_dir] holds the only reference to its
      [tempfile.TemporaryDirectory]: when [close] rebinds the attribute
      while the directory was not cleaned up, the finalizer of the object
      removes the directory, which the trace records ([EvTempFinalize]).
    - Paths follow [posixpath] ([os.sep = "/"]).
    - [new_context], [_get_default_edge_user_data_dir] and [__del__] are
      not used by the methods studied here and are left out. *)

From Stdlib Require Import String Ascii List ZArith Bool Lia.
Import ListNotations.
Open Scope string_scope.

(* ================================================================== *)
(** ** Python values *)

(** Truthiness of a [str | None] attribute: [None] and [''] are falsy. *)
Definition truthy (o : option string) : option string :=
  match o with
  | Some EmptyString => None
  | Some s => Some s
  | None => None
  end.

Inductive exn_class :=
| ValueError | TypeError | AttributeError | RuntimeError
| TimeoutError | FileNotFoundError | OSError
| RequestsConnectionError   (* requests.ConnectionError and subclasses *)
| RequestsOtherError        (* any other requests exception, e.g. ReadTimeout *)
| PlaywrightError.

Record exn := mkExn { exn_cls : exn_class; exn_str : string }.

Inductive result (A : Type) :=
| Ok (a : A)
| Raise (e : exn).
Arguments Ok {A} a.
Arguments Raise {A} e.

(** An instance attribute: removed by [del], bound to [None], or bound
    to an object. *)
Inductive attr (A : Type) :=
| Deleted
| PyNone
| Obj (a : A).
Arguments Deleted {A}.
Arguments PyNone {A}.
Arguments Obj {A} a.

Definition handle := nat.

(** playwright's [ProxySettings] typed dict. *)
Record ProxySettings := {
  server : string;
  bypass : option string;
  username : option string;
  password : option string
}.

(* ================================================================== *)
(** ** Configuration and manager state *)

Record BrowserConfig := {
  headless : bool;
  disable_security : bool;
  extra_chromium_args : list string;
  chrome_instance_path : option string;
  wss_url : option string;
  cdp_url : option string;
  browser_type : string;
  user_data_dir : option string;
  use_existing_browser : bool;
  proxy : option ProxySettings;
  _force_keep_browser_alive : bool
}.

(** [BrowserConfig()] with the dataclass defaults
    ([new_context_config] is opaque to this class and left out). *)
Definition default_config : BrowserConfig :=
  {| headless := false; disable_security := true;
     extra_chromium_args := []; chrome_instance_path := None;
     wss_url := None; cdp_url := None; browser_type := "chromium";
     user_data_dir := None; use_existing_browser := false;
     proxy := None; _force_keep_browser_alive := false |}.

Record Browser := {
  config : BrowserConfig;
  playwright : attr handle;
  playwright_browser : attr handle;
  browser_context : attr handle;
  temp_dir : attr string;          (* a TemporaryDirectory, known by its name *)
  disable_security_args : list string
}.

(** [Browser.__init__] *)
Definition __init__ (cfg : BrowserConfig) : Browser :=
  {| config := cfg;
     playwright := PyNone;
     playwright_browser := PyNone;
     browser_context := PyNone;
     temp_dir := PyNone;
     disable_security_args :=
       if disable_security cfg then
         [ "--disable-web-security";
           "--disable-site-isolation-trials";
           "--disable-features=IsolateOrigins,site-per-process" ]
       else [] |}.

(* ================================================================== *)
(** ** Events and the outside world *)

Inductive log_level := DEBUG | INFO | WARNING | ERROR.

Inductive event :=
| EvLog (lvl : log_level) (msg : string)
| EvPlaywrightStart
| EvConnectOverCDP (endpoint_url : string) (timeout : option Z)
| EvConnect (ws_endpoint : string)
| EvLaunch (launcher : string) (headless_ : bool)
           (executable_path : option string) (args : list string)
           (proxy_ : option ProxySettings)
| EvNewContext (browser : handle) (storage_state : option string)
| EvRequestsGet (url : string) (timeout : Z)
| EvPopen (cmd : list string)
| EvAsyncioSleep (secs : Z)
| EvTimeSleep (secs : Z)
| EvTemporaryDirectory (prefix_ : string)
| EvExists (path : string)
| EvIsdir (path : string)
| EvMakedirs (path : string)
| EvCopy2 (src dst : string)
| EvCopytree (src dst : string)
| EvGlob (pattern : string)
| EvContextClose (h : handle)
| EvBrowserClose (h : handle)
| EvPlaywrightStop (h : handle)
| EvTempCleanup (name : string)
| EvTempFinalize (name : string)
| EvGcCollect.

Definition history := list event.

(** What a fallible collaborator answers: a value, or the message of the
    exception it raises. *)
Inductive outcome (A : Type) :=
| Done (a : A)
| Failed (msg : string).
Arguments Done {A} a.
Arguments Failed {A} msg.

(** What [requests.get] does. *)
Inductive http_outcome :=
| HttpStatus (status_code : Z)
| HttpConnectionError (msg : string)
| HttpOtherError (msg : string).

Record World := {
  platform_system : string;
  async_playwright_start : history -> outcome handle;
  pw_connect_over_cdp : history -> string -> option Z -> outcome handle;
  pw_connect : history -> string -> outcome handle;
  pw_launch : history -> string -> bool -> option string -> list string ->
              option ProxySettings -> outcome handle;
  pw_has_other_attr : string -> bool;
  pw_new_context : history -> handle -> option string -> outcome handle;
  pw_context_close : history -> handle -> outcome unit;
  pw_browser_close : history -> handle -> outcome unit;
  pw_stop : history -> handle -> outcome unit;
  requests_get : history -> string -> Z -> http_outcome;
  subprocess_Popen : history -> list string -> outcome unit;
  tempfile_TemporaryDirectory : history -> string -> outcome string;
  tempdir_cleanup : history -> string -> outcome unit;
  os_path_exists : history -> string -> bool;
  os_path_isdir : history -> string -> bool;
  os_makedirs : history -> string -> outcome unit;
  shutil_copy2 : history -> string -> string -> outcome unit;
  shutil_copytree : history -> string -> string -> outcome unit;
  glob_glob : history -> string -> list string
}.

(* ================================================================== *)
(** ** The state-and-exception monad *)

Record State := { self : Browser; trace : history }.

Definition M (A : Type) := State -> result A * State.

Definition ret {A} (a : A) : M A := fun s => (Ok a, s).

Definition raise {A} (e : exn) : M A := fun s => (Raise e, s).

Definition bind {A B} (m : M A) (k : A -> M B) : M B :=
  fun s =>
    match m s with
    | (Ok a, s') => k a s'
    | (Raise e, s') => (Raise e, s')
    end.

Notation "x <- m ;; k" := (bind m (fun x => k))
  (at level 61, m at next level, right associativity).
Notation "m ;;; k" := (bind m (fun _ => k))
  (at level 61, right associativity).

(** [try: m  except cls: h], where [catches] decides the except clause. *)
Definition try_except {A} (m : M A) (catches : exn -> bool)
    (h : exn -> M A) : M A :=
  fun s =>
    match m s with
    | (Ok a, s') => (Ok a, s')
    | (Raise e, s') => if catches e then h e s' else (Raise e, s')
    end.

(** [try: m  finally: f].  An exception of [f] replaces that of [m]. *)
Definition try_finally {A} (m : M A) (f : M unit) : M A :=
  fun s =>
    match m s with
    | (r, s') =>
        match f s' with
        | (Ok _, s'') => (r, s'')
        | (Raise e, s'') => (Raise e, s'')
        end
    end.

(** [except Exception] *)
Definition any_Exception (e : exn) : bool := true.

(** [except requests.ConnectionError] *)
Definition is_ConnectionError (e : exn) : bool :=
  match exn_cls e with
  | RequestsConnectionError => true
  | _ => false
  end.

(** Appending an event to the trace. *)
Definition record_event (ev : event) (s : State) : State :=
  {| self := self s; trace := (trace s ++ [ev])%list |}.

Definition emit (ev : event) : M unit :=
  fun s => (Ok tt, record_event ev s).

(** A call to a collaborator: the oracle sees the trace before the call,
    the call is recorded, and a failure is raised as class [cls]. *)
Definition call {A} (ev : event) (o : history -> outcome A)
    (cls : exn_class) : M A :=
  fun s =>
    let s' := record_event ev s in
    match o (trace s) with
    | Done a => (Ok a, s')
    | Failed msg => (Raise (mkExn cls msg), s')
    end.

(** A query that cannot fail. *)
Definition query {A} (ev : event) (o : history -> A) : M A :=
  fun s => (Ok (o (trace s)), record_event ev s).

Definition get_self : M Browser := fun s => (Ok (self s), s).

Definition set_self (b : Browser) : M unit :=
  fun s => (Ok tt, {| self := b; trace := trace s |}).

(** Reading [self.x]: a deleted attribute raises [AttributeError]. *)
Definition getattr_ {A} (name : string) (f : Browser -> attr A)
    : M (option A) :=
  fun s =>
    match f (self s) with
    | Deleted =>
        (Raise (mkExn AttributeError
                  ("'Browser' object has no attribute '" ++ name ++ "'")), s)
    | PyNone => (Ok None, s)
    | Obj a => (Ok (Some a), s)
    end.

Definition set_playwright (v : attr handle) : M unit :=
  b <- get_self ;;
  set_self {| config := config b; playwright := v;
              playwright_browser := playwright_browser b;
              browser_context := browser_context b;
              temp_dir := temp_dir b;
              disable_security_args := disable_security_args b |}.

Definition set_playwright_browser (v : attr handle) : M unit :=
  b <- get_self ;;
  set_self {| config := config b; playwright := playwright b;
              playwright_browser := v;
              browser_context := browser_context b;
              temp_dir := temp_dir b;
              disable_security_args := disable_security_args b |}.

Definition set_browser_context (v : attr handle) : M unit :=
  b <- get_self ;;
  set_self {| config := config b; playwright := playwright b;
              playwright_browser := playwright_browser b;
              browser_context := v;
              temp_dir := temp_dir b;
              disable_security_args := disable_security_args b |}.

Definition set_temp_dir (v : attr string) : M unit :=
  b <- get_self ;;
  set_self {| config := config b; playwright := playwright b;
              playwright_browser := playwright_browser b;
              browser_context := browser_context b;
              temp_dir := v;
              disable_security_args := disable_security_args b |}.

Definition log (lvl : log_level) (msg : string) : M unit :=
  emit (EvLog lvl msg).

(** [for _ in range(n): body], where [body] returns [true] on [break].
    The result tells whether the loop was left by [break]. *)
Fixpoint for_range (n : nat) (body : M bool) : M bool :=
  match n with
  | O => ret false
  | S n' =>
      b <- body ;;
      if b then ret true else for_range n' body
  end.

(** [for x in xs: body x] *)
Fixpoint for_each {A} (xs : list A) (body : A -> M unit) : M unit :=
  match xs with
  | [] => ret tt
  | x :: xs' => body x ;;; for_each xs' body
  end.

(* ================================================================== *)
(** ** [str] and [posixpath] helpers *)

Definition sep : ascii := "/"%char.

Definition is_empty (s : string) : bool :=
  match s with
  | EmptyString => true
  | String _ _ => false
  end.

(** [s.endswith('/')] *)
Fixpoint endswith_sep (s : string) : bool :=
  match s with
  | EmptyString => false
  | String c EmptyString => Ascii.eqb c sep
  | String _ r => endswith_sep r
  end.

(** One step of [posixpath.join]: a component that starts with a slash
    restarts the path. *)
Definition join2 (path b : string) : string :=
  if String.prefix "/" b then b
  else if is_empty path || endswith_sep path then path ++ b
  else path ++ "/" ++ b.

(** [os.path.join(a, *p)] *)
Definition os_path_join (a : string) (p : list string) : string :=
  fold_left join2 p a.

(** [(p[:i], p[i:])] with [i = p.rfind('/') + 1]. *)
Fixpoint split_last_sep (p : string) : string * string :=
  match p with
  | EmptyString => (EmptyString, EmptyString)
  | String c r =>
      let (h, t) := split_last_sep r in
      if is_empty h then
        if Ascii.eqb c sep then (String c EmptyString, r)
        else (EmptyString, String c r)
      else (String c h, t)
  end.

(** [s.rstrip('/')] *)
Fixpoint rstrip_sep (s : string) : string :=
  match s with
  | EmptyString => EmptyString
  | String c r =>
      let r' := rstrip_sep r in
      if is_empty r' && Ascii.eqb c sep then EmptyString else String c r'
  end.

(** [s.lstrip(os.sep)] *)
Fixpoint lstrip_sep (s : string) : string :=
  match s with
  | EmptyString => EmptyString
  | String c r => if Ascii.eqb c sep then lstrip_sep r else s
  end.

(** [head == '/' * len(head)] *)
Fixpoint all_sep (s : string) : bool :=
  match s with
  | EmptyString => true
  | String c r => Ascii.eqb c sep && all_sep r
  end.

(** [os.path.dirname] *)
Definition os_path_dirname (p : string) : string :=
  let head := fst (split_last_sep p) in
  if negb (is_empty head) && negb (all_sep head) then rstrip_sep head
  else head.

(** [os.path.basename] *)
Definition os_path_basename (p : string) : string :=
  snd (split_last_sep p).

(** [s.replace(old, '')] scans left to right; [skip] counts the
    characters of a match still to be dropped. *)
Fixpoint remove_all_aux (old s : string) (skip : nat) : string :=
  match s with
  | EmptyString => EmptyString
  | String c r =>
      match skip with
      | S k => remove_all_aux old r k
      | O =>
          if String.prefix old s
          then remove_all_aux old r (String.length old - 1)
          else String c (remove_all_aux old r 0)
      end
  end.

Definition str_remove (old s : string) : string :=
  if is_empty old then s else remove_all_aux old s 0.

(* ================================================================== *)
(** ** The methods of [Browser] *)

Definition version_url : string := "http://localhost:9222/json/version".
Definition debug_endpoint : string := "http://localhost:9222".

Section Methods.

Variable w : World.

(** [requests.get(url, timeout=t).status_code] *)
Definition http_get (url : string) (t : Z) : M Z :=
  fun s =>
    let s' := record_event (EvRequestsGet url t) s in
    match requests_get w (trace s) url t with
    | HttpStatus n => (Ok n, s')
    | HttpConnectionError msg => (Raise (mkExn RequestsConnectionError msg), s')
    | HttpOtherError msg => (Raise (mkExn RequestsOtherError msg), s')
    end.

(** [playwright.chromium.connect_over_cdp] *)
Definition connect_over_cdp (url : string) (t : option Z) : M handle :=
  call (EvConnectOverCDP url t) (fun h => pw_connect_over_cdp w h url t)
       PlaywrightError.

(** The [for path in possible_paths] loops of [_get_edge_path]. *)
Fixpoint first_existing (paths : list string) : M (option string) :=
  match paths with
  | [] => ret None
  | p :: ps =>
      e <- query (EvExists p) (fun h => os_path_exists w h p) ;;
      if e then ret (Some p) else first_existing ps
  end.

Definition windows_edge_paths : list string :=
  [ "C:\Program Files (x86)\Microsoft\Edge\Application\msedge.exe";
    "C:\Program Files\Microsoft\Edge\Application\msedge.exe" ].

Definition darwin_edge_path : string :=
  "/Applications/Microsoft Edge.app/Contents/MacOS/Microsoft Edge".

Definition linux_edge_paths : list string :=
  [ "/usr/bin/microsoft-edge";
    "/usr/bin/microsoft-edge-stable";
    "/opt/microsoft/msedge/msedge" ].

Definition edge_not_found : exn :=
  mkExn FileNotFoundError
    "Microsoft Edge executable not found. Please provide the path explicitly.".

(** [Browser._get_edge_path] *)
Definition _get_edge_path : M string :=
  let system := platform_system w in
  if String.eqb system "Windows" then
    r <- first_existing windows_edge_paths ;;
    match r with
    | Some path => ret path
    | None => raise edge_not_found
    end
  else if String.eqb system "Darwin" then
    ret darwin_edge_path
  else if String.eqb system "Linux" then
    r <- first_existing linux_edge_paths ;;
    match r with
    | Some path => ret path
    | None => raise edge_not_found
    end
  else
    raise (mkExn OSError ("Unsupported operating system: " ++ system)).

(** The body of the first loop of [_copy_cookies_from_profile]. *)
Definition copy_cookie_file (source_profile target_profile file_path : string)
    : M unit :=
  e <- query (EvExists file_path) (fun h => os_path_exists w h file_path) ;;
  if e then
    let target_dir :=
      os_path_join target_profile
        [lstrip_sep (os_path_dirname (str_remove source_profile file_path))] in
    call (EvMakedirs target_dir) (fun h => os_makedirs w h target_dir) OSError ;;;
    try_except
      (let dst := os_path_join target_dir [os_path_basename file_path] in
       call (EvCopy2 file_path dst) (fun h => shutil_copy2 w h file_path dst)
            OSError ;;;
       log INFO ("Copied cookies from " ++ file_path))
      any_Exception
      (fun e => log WARNING ("Failed to copy cookies: " ++ exn_str e))
  else ret tt.

(** The body of the second loop of [_copy_cookies_from_profile]. *)
Definition copy_local_storage (source_profile target_profile ls_path : string)
    : M unit :=
  e <- query (EvExists ls_path) (fun h => os_path_exists w h ls_path) ;;
  d <- (if e then query (EvIsdir ls_path) (fun h => os_path_isdir w h ls_path)
        else ret false) ;;
  if d then
    let target_ls_dir :=
      os_path_join target_profile
        [lstrip_sep (str_remove source_profile ls_path)] in
    try_except
      (let parent := os_path_dirname target_ls_dir in
       call (EvMakedirs parent) (fun h => os_makedirs w h parent) OSError ;;;
       call (EvCopytree ls_path target_ls_dir)
            (fun h => shutil_copytree w h ls_path target_ls_dir) OSError ;;;
       log INFO ("Copied local storage from " ++ ls_path))
      any_Exception
      (fun e => log WARNING ("Failed to copy local storage: " ++ exn_str e))
  else ret tt.

Definition cookies_files (source_profile : string) : list string :=
  [ os_path_join source_profile ["Default"; "Cookies"];
    os_path_join source_profile ["Default"; "Network"; "Cookies"];
    os_path_join source_profile ["Cookies"] ].

Definition local_storage_paths (source_profile : string) : list string :=
  [ os_path_join source_profile ["Default"; "Local Storage"];
    os_path_join source_profile ["Local Storage"] ].

(** [Browser._copy_cookies_from_profile] *)
Definition _copy_cookies_from_profile (source_profile target_profile : string)
    : M unit :=
  (* Ensure target directory exists *)
  call (EvMakedirs target_profile) (fun h => os_makedirs w h target_profile)
       OSError ;;;
  for_each (cookies_files source_profile)
           (copy_cookie_file source_profile target_profile) ;;;
  for_each (local_storage_paths source_profile)
           (copy_local_storage source_profile target_profile).

(** [Browser._get_storage_state_path] *)
Definition _get_storage_state_path (profile_dir : string) : M (option string) :=
  let pattern := os_path_join profile_dir ["**"; "Cookies"] in
  found <- query (EvGlob pattern) (fun h => glob_glob w h pattern) ;;
  match found with
  | first :: _ => ret (Some (os_path_dirname first))
  | [] => ret None
  end.

(** [Browser._setup_cdp] *)
Definition _setup_cdp (pw : handle) : M handle :=
  b <- get_self ;;
  match truthy (cdp_url (config b)) with
  | None => raise (mkExn ValueError "CDP URL is required")
  | Some url =>
      log INFO ("Connecting to remote browser via CDP " ++ url) ;;;
      connect_over_cdp url None
  end.

(** [Browser._setup_wss] *)
Definition _setup_wss (pw : handle) : M handle :=
  b <- get_self ;;
  match truthy (wss_url (config b)) with
  | None => raise (mkExn ValueError "WSS URL is required")
  | Some url =>
      log INFO ("Connecting to remote browser via WSS " ++ url) ;;;
      call (EvConnect url) (fun h => pw_connect w h url) PlaywrightError
  end.

(** The first [try] block of the two reuse paths: [Some browser] when the
    block returned from the method, [None] when control falls through. *)
Definition probe_existing (found_msg : string) (on_refused : M unit)
    : M (option handle) :=
  try_except
    (status <- http_get version_url 2 ;;
     if (status =? 200)%Z then
       log INFO found_msg ;;;
       browser <- connect_over_cdp debug_endpoint (Some 20000%Z) ;;
       ret (Some browser)
     else ret None)
    is_ConnectionError
    (fun _ => on_refused ;;; ret None).

Definition chrome_debug_mode_error : exn :=
  mkExn RuntimeError
    " To start chrome in Debug mode, you need to close all existing Chrome instances and try again otherwise we can not connect to the instance.".

(** The argument list of [subprocess.Popen] in
    [_setup_browser_with_instance]. *)
Definition chrome_cmd (path : string) (cfg : BrowserConfig) : list string :=
  ([path; "--remote-debugging-port=9222"] ++ extra_chromium_args cfg)%list.

(** The argument list of [subprocess.Popen] in
    [_connect_to_existing_edge]. *)
Definition edge_cmd (edge_path udd : string) : list string :=
  [ edge_path;
    "--remote-debugging-port=9222";
    "--user-data-dir=" ++ udd;
    "--no-first-run" ].

(** One iteration of the poll loop of [_setup_browser_with_instance]:
    [true] when the loop is left by [break]. *)
Definition chrome_poll_step : M bool :=
  brk <- try_except
           (status <- http_get version_url 2 ;;
            ret (status =? 200)%Z)
           is_ConnectionError
           (fun _ => ret false) ;;
  if brk then ret true
  else emit (EvAsyncioSleep 1) ;;; ret false.

(** The part of [_setup_browser_with_instance] after the first probe. *)
Definition start_new_chrome (path : string) : M handle :=
  b <- get_self ;;
  (* Start a new Chrome instance *)
  call (EvPopen (chrome_cmd path (config b)))
       (fun h => subprocess_Popen w h (chrome_cmd path (config b)))
       OSError ;;;
  (* Attempt to connect again after starting a new instance *)
  for_range 10 chrome_poll_step ;;;
  try_except
    (connect_over_cdp debug_endpoint (Some 20000%Z))
    any_Exception
    (fun e =>
       log ERROR ("Failed to start a new Chrome instance.: " ++ exn_str e) ;;;
       raise chrome_debug_mode_error).

(** [Browser._setup_browser_with_instance] *)
Definition _setup_browser_with_instance (pw : handle) : M handle :=
  b <- get_self ;;
  match truthy (chrome_instance_path (config b)) with
  | None => raise (mkExn ValueError "Chrome instance path is required")
  | Some path =>
      found <- probe_existing "Reusing existing Chrome instance"
                 (log DEBUG "No existing Chrome instance found, starting a new one") ;;
      match found with
      | Some browser => ret browser
      | None => start_new_chrome path
      end
  end.

(** One iteration of the poll loop of [_connect_to_existing_edge]. *)
Definition edge_poll_step : M bool :=
  try_except
    (status <- http_get version_url 2 ;;
     if (status =? 200)%Z then
       log INFO "Edge started successfully" ;;; ret true
     else ret false)
    is_ConnectionError
    (fun _ => emit (EvTimeSleep 1) ;;; ret false).

Definition max_wait : nat := 30.

(** The part of [_connect_to_existing_edge] after the first probe. *)
Definition start_new_edge : M handle :=
  b <- get_self ;;
  (* Get the Edge executable path *)
  edge_path <- _get_edge_path ;;
  (* Launch Edge with remote debugging enabled *)
  log INFO "Starting Edge with remote debugging enabled" ;;;
  match user_data_dir (config b) with
  | None =>
      raise (mkExn TypeError
               "can only concatenate str (not NoneType) to str")
  | Some udd =>
      let cmd := edge_cmd edge_path udd in
      call (EvPopen cmd) (fun h => subprocess_Popen w h cmd) OSError ;;;
      (* Wait for the browser to start *)
      brk <- for_range max_wait edge_poll_step ;;
      if brk then
        (* Connect to the browser *)
        connect_over_cdp debug_endpoint (Some 20000%Z)
      else
        raise (mkExn TimeoutError "Failed to start Edge browser in time")
  end.

(** [Browser._connect_to_existing_edge] *)
Definition _connect_to_existing_edge (pw : handle) : M handle :=
  found <- probe_existing "Found existing Edge instance, connecting to it"
             (ret tt) ;;
  match found with
  | Some browser => ret browser
  | None => start_new_edge
  end.

Definition launch_args : list string :=
  [ "--no-sandbox";
    "--disable-blink-features=AutomationControlled";
    "--disable-infobars";
    "--disable-background-timer-throttling";
    "--disable-popup-blocking";
    "--disable-backgrounding-occluded-windows";
    "--disable-renderer-backgrounding";
    "--disable-window-activation";
    "--disable-focus-on-load";
    "--no-first-run";
    "--no-default-browser-check";
    "--no-startup-window";
    "--window-position=0,0" ].

Definition edge_profile_prefix : string := "edge_profile_".

(** [playwright.<launcher>.launch(headless, executable_path, args, proxy)] *)
Definition launch (launcher : string) (exe : option string)
    (args : list string) : M handle :=
  b <- get_self ;;
  call (EvLaunch launcher (headless (config b)) exe args (proxy (config b)))
       (fun h => pw_launch w h launcher (headless (config b)) exe args
                   (proxy (config b)))
       PlaywrightError.

(** The msedge branch of [_setup_standard_browser] with a user-data
    directory, after the Edge executable was found. *)
Definition launch_edge_with_profile (edge_path udd : string) : M handle :=
  b <- get_self ;;
  log INFO ("Launching Microsoft Edge with user data directory: " ++ udd) ;;;
  (* Create a temporary profile based on the existing profile *)
  temp_user_data_dir <-
    call (EvTemporaryDirectory edge_profile_prefix)
         (fun h => tempfile_TemporaryDirectory w h edge_profile_prefix)
         OSError ;;
  set_temp_dir (Obj temp_user_data_dir) ;;;
  (* Copy cookies and site data from the original profile *)
  _copy_cookies_from_profile udd temp_user_data_dir ;;;
  log INFO ("Created temporary profile at: " ++ temp_user_data_dir) ;;;
  browser <- launch "chromium" (Some edge_path)
               (launch_args ++ extra_chromium_args (config b)
                  ++ [ "--no-private-window"; "--no-incognito" ])%list ;;
  (* After browser is launched, create a context with the cookies *)
  storage_state <- _get_storage_state_path temp_user_data_dir ;;
  context <- call (EvNewContext browser storage_state)
               (fun h => pw_new_context w h browser storage_state)
               PlaywrightError ;;
  set_browser_context (Obj context) ;;;
  ret browser.

(** The msedge branch of [_setup_standard_browser] without a user-data
    directory. *)
Definition launch_edge_disposable (edge_path : string) : M handle :=
  b <- get_self ;;
  temp_dir_ <-
    call (EvTemporaryDirectory edge_profile_prefix)
         (fun h => tempfile_TemporaryDirectory w h edge_profile_prefix)
         OSError ;;
  browser <- launch "chromium" (Some edge_path)
               ((launch_args ++ disable_security_args b)
                  ++ extra_chromium_args (config b)
                  ++ [ ("--user-data-dir=" ++ temp_dir_)%string ])%list ;;
  (* Store the temp dir to clean up later *)
  set_temp_dir (Obj temp_dir_) ;;;
  ret browser.

(** [getattr(playwright, browser_type, playwright.chromium)]: the three
    launchers of the engine, [None] for an attribute that is no
    launcher, the chromium launcher for a name the engine lacks. *)
Definition browser_launcher (name : string) : option string :=
  if String.eqb name "chromium" || String.eqb name "firefox"
     || String.eqb name "webkit"
  then Some name
  else if pw_has_other_attr w name then None
  else Some "chromium".

(** [Browser._setup_standard_browser] *)
Definition _setup_standard_browser (pw : handle) : M handle :=
  b <- get_self ;;
  let cfg := config b in
  if String.eqb (browser_type cfg) "msedge" then
    match use_existing_browser cfg, truthy (user_data_dir cfg) with
    | true, Some _ => _connect_to_existing_edge pw
    | _, _ =>
        (* Find the Microsoft Edge executable path *)
        edge_path <- _get_edge_path ;;
        match truthy (user_data_dir cfg) with
        | Some udd => launch_edge_with_profile edge_path udd
        | None => launch_edge_disposable edge_path
        end
    end
  else
    (* Default to chromium for other browser types *)
    match browser_launcher (browser_type cfg) with
    | Some launcher =>
        launch launcher None
          (launch_args ++ disable_security_args b
             ++ extra_chromium_args cfg)%list
    | None =>
        raise (mkExn AttributeError "object has no attribute 'launch'")
    end.

(** [try: m  except Exception as e: logger.error(...); raise] *)
Definition logged_init {A} (m : M A) : M A :=
  try_except m any_Exception
    (fun e =>
       log ERROR ("Failed to initialize Playwright browser: " ++ exn_str e) ;;;
       raise e).

(** [Browser._setup_browser] *)
Definition _setup_browser (pw : handle) : M handle :=
  logged_init
    (b <- get_self ;;
     match truthy (cdp_url (config b)) with
     | Some _ => _setup_cdp pw
     | None =>
         match truthy (wss_url (config b)) with
         | Some _ => _setup_wss pw
         | None =>
             match truthy (chrome_instance_path (config b)) with
             | Some _ => _setup_browser_with_instance pw
             | None => _setup_standard_browser pw
             end
         end
     end).

(** [Browser._init]; the timing decorator only logs a duration. *)
Definition _init : M handle :=
  pw <- call EvPlaywrightStart (async_playwright_start w) PlaywrightError ;;
  browser <- _setup_browser pw ;;
  set_playwright (Obj pw) ;;;
  set_playwright_browser (Obj browser) ;;;
  ret browser.

(** [Browser.get_playwright_browser] *)
Definition get_playwright_browser : M handle :=
  pb <- getattr_ "playwright_browser" playwright_browser ;;
  match pb with
  | None => _init
  | Some browser => ret browser
  end.

(* ------------------------------------------------------------------ *)
(** *** Teardown *)

(** First close the browser context if it exists. *)
Definition close_context : M unit :=
  ctx <- getattr_ "browser_context" browser_context ;;
  match ctx with
  | Some c =>
      call (EvContextClose c) (fun h => pw_context_close w h c)
           PlaywrightError ;;;
      set_browser_context PyNone
  | None => ret tt
  end.

(** Then close browser if it exists. *)
Definition close_playwright_browser : M unit :=
  br <- getattr_ "playwright_browser" playwright_browser ;;
  match br with
  | Some p =>
      call (EvBrowserClose p) (fun h => pw_browser_close w h p)
           PlaywrightError ;;;
      set_playwright_browser Deleted
  | None => ret tt
  end.

(** Finally stop playwright. *)
Definition stop_playwright : M unit :=
  pw <- getattr_ "playwright" playwright ;;
  match pw with
  | Some p =>
      call (EvPlaywrightStop p) (fun h => pw_stop w h p) PlaywrightError ;;;
      set_playwright Deleted
  | None => ret tt
  end.

(** Clean up temporary directory if it exists. *)
Definition cleanup_temp_dir : M unit :=
  td <- getattr_ "temp_dir" temp_dir ;;
  match td with
  | Some d =>
      try_except
        (call (EvTempCleanup d) (fun h => tempdir_cleanup w h d) OSError)
        any_Exception
        (fun e =>
           log DEBUG
             ("Failed to clean up temporary directory: " ++ exn_str e)) ;;;
      set_temp_dir PyNone
  | None => ret tt
  end.

(** [self.temp_dir = None] in the [finally] block.  A directory that is
    still held there was not cleaned up ([cleanup_temp_dir] rebinds the
    attribute right after its [cleanup()] call), so the assignment drops
    the last reference to the [TemporaryDirectory] and its finalizer
    removes the directory.  The finalizer runs inside the assignment and
    an error of it cannot propagate. *)
Definition drop_temp_dir : M unit :=
  b <- get_self ;;
  set_temp_dir PyNone ;;;
  match temp_dir b with
  | Obj d => emit (EvTempFinalize d)
  | _ => ret tt
  end.

(** The [finally] block of [close]. *)
Definition reset_handles : M unit :=
  set_browser_context PyNone ;;;
  set_playwright_browser PyNone ;;;
  set_playwright PyNone ;;;
  drop_temp_dir ;;;
  emit EvGcCollect.

Definition log_close_failure (e : exn) : M unit :=
  log DEBUG ("Failed to close browser properly: " ++ exn_str e).

(** The guarded body of [close]: its [try] block with the
    [except Exception] handler. *)
Definition close_body : M unit :=
  try_except
    (b <- get_self ;;
     if negb (_force_keep_browser_alive (config b)) then
       close_context ;;;
       close_playwright_browser ;;;
       stop_playwright ;;;
       cleanup_temp_dir
     else ret tt)
    any_Exception
    log_close_failure.

(** [Browser.close] *)
Definition close : M unit :=
  try_finally close_body reset_handles.

End Methods.

(* ================================================================== *)
(** ** Vocabulary of the statements *)

(** The manager with its four owned handles bound to [None]. *)
Definition cleared (b : Browser) : Browser :=
  {| config := config b;
     playwright := PyNone;
     playwright_browser := PyNone;
     browser_context := PyNone;
     temp_dir := PyNone;
     disable_security_args := disable_security_args b |}.

Definition handles_absent (b : Browser) : Prop :=
  playwright b = PyNone /\ playwright_browser b = PyNone /\
  browser_context b = PyNone /\ temp_dir b = PyNone.

Definition is_log (ev : event) : bool :=
  match ev with
  | EvLog _ _ => true
  | _ => false
  end.

(** The trace without its log records: what was done to the outside. *)
Definition actions (tr : history) : list event :=
  filter (fun ev => negb (is_log ev)) tr.

(** The teardown steps of [close]. *)
Definition is_teardown (ev : event) : bool :=
  match ev with
  | EvContextClose _ | EvBrowserClose _ | EvPlaywrightStop _
  | EvTempCleanup _ => true
  | _ => false
  end.

Definition teardown_actions (tr : history) : list event :=
  filter is_teardown tr.

(** What the finalizer of the temporary directory does when the
    [finally] block of [close] drops the handle of manager [b]. *)
Definition finalized (b : Browser) : list event :=
  match temp_dir b with
  | Obj d => [EvTempFinalize d]
  | _ => []
  end.

(** The record that the handler of [close] writes for exception [e]. *)
Definition close_failure_log (e : exn) : event :=
  EvLog DEBUG ("Failed to close browser properly: " ++ exn_str e).

Definition cleanup_failure_log (msg : string) : event :=
  EvLog DEBUG ("Failed to clean up temporary directory: " ++ msg).

(** *** Concrete worlds and states for the closed examples *)

(** A world on [system] in which the debug endpoint answers [http], the
    file system has the paths [exists_], attaching over CDP gives [cdp],
    closing a context gives [ctx_close], creating directory [p] gives
    [makedirs p], and every other collaborator succeeds. *)
Definition make_world (system : string) (http : history -> http_outcome)
    (exists_ : string -> bool) (cdp : outcome handle)
    (ctx_close : outcome unit) (makedirs : string -> outcome unit) : World :=
  {| platform_system := system;
     async_playwright_start := fun _ => Done 1;
     pw_connect_over_cdp := fun _ _ _ => cdp;
     pw_connect := fun _ _ => Done 2;
     pw_launch := fun _ _ _ _ _ _ => Done 2;
     pw_has_other_attr := fun _ => false;
     pw_new_context := fun _ _ _ => Done 3;
     pw_context_close := fun _ _ => ctx_close;
     pw_browser_close := fun _ _ => Done tt;
     pw_stop := fun _ _ => Done tt;
     requests_get := fun h _ _ => http h;
     subprocess_Popen := fun _ _ => Done tt;
     tempfile_TemporaryDirectory := fun _ _ => Done "/tmp/edge_profile_x";
     tempdir_cleanup := fun _ _ => Done tt;
     os_path_exists := fun _ p => exists_ p;
     os_path_isdir := fun _ p => exists_ p;
     os_makedirs := fun _ p => makedirs p;
     shutil_copy2 := fun _ _ _ => Done tt;
     shutil_copytree := fun _ _ _ => Done tt;
     glob_glob := fun _ _ => [] |}.

Definition refused : history -> http_outcome :=
  fun _ => HttpConnectionError "connection refused".

Definition no_files : string -> bool := fun _ => false.

Definition dirs_ok : string -> outcome unit := fun _ => Done tt.

(** Linux, nothing listening on port 9222, no Edge installed, every
    collaborator succeeds. *)
Definition quiet_world : World :=
  make_world "Linux" refused no_files (Done 2) (Done tt) dirs_ok.

(** As [quiet_world], but closing a browser context fails. *)
Definition context_close_fails : World :=
  make_world "Linux" refused no_files (Done 2)
    (Failed "Target closed") dirs_ok.

(** A manager on configuration [cfg] with all four handles live. *)
Definition live_browser (cfg : BrowserConfig) : Browser :=
  {| config := cfg;
     playwright := Obj 1;
     playwright_browser := Obj 2;
     browser_context := Obj 3;
     temp_dir := Obj "/tmp/edge_profile_x";
     disable_security_args := disable_security_args (__init__ cfg) |}.

Definition keep_alive_config : BrowserConfig :=
  {| headless := false; disable_security := true;
     extra_chromium_args := []; chrome_instance_path := None;
     wss_url := None; cdp_url := None; browser_type := "chromium";
     user_data_dir := None; use_existing_browser := false;
     proxy := None; _force_keep_browser_alive := true |}.

Definition live_state : State :=
  {| self := live_browser default_config; trace := [] |}.

Definition kept_alive_state : State :=
  {| self := live_browser keep_alive_config; trace := [] |}.

(** A manager fresh from [Browser(config=cfg)], nothing done yet. *)
Definition fresh_state (cfg : BrowserConfig) : State :=
  {| self := __init__ cfg; trace := [] |}.

(** The install paths that [_get_edge_path] knows for a platform. *)
Definition known_edge_paths (system : string) : list string :=
  if String.eqb system "Windows" then windows_edge_paths
  else if String.eqb system "Darwin" then [darwin_edge_path]
  else if String.eqb system "Linux" then linux_edge_paths
  else [].

(** macOS without Microsoft Edge. *)
Definition macos_without_edge : World :=
  make_world "Darwin" refused no_files (Done 2) (Done tt) dirs_ok.

(** The record [_setup_browser] writes before it re-raises [e]. *)
Definition init_failure_log (e : exn) : event :=
  EvLog ERROR ("Failed to initialize Playwright browser: " ++ exn_str e).

(** The configuration of [jarvis_agent.py]: a CDP endpoint only. *)
Definition cdp_config : BrowserConfig :=
  {| headless := false; disable_security := true;
     extra_chromium_args := []; chrome_instance_path := None;
     wss_url := None;
     cdp_url := Some "http://localhost:9223/json/version";
     browser_type := "chromium";
     user_data_dir := None; use_existing_browser := false;
     proxy := None; _force_keep_browser_alive := false |}.

(** The liveness probe of the debug endpoint. *)
Definition probe : event := EvRequestsGet version_url 2.

(** The attach to the debug port. *)
Definition attach : event := EvConnectOverCDP debug_endpoint (Some 20000%Z).


Definition chrome_not_found_log : event :=
  EvLog DEBUG "No existing Chrome instance found, starting a new one".

(** An explicit Chrome executable, nothing else. *)
Definition chrome_config : BrowserConfig :=
  {| headless := false; disable_security := true;
     extra_chromium_args := [];
     chrome_instance_path := Some "/usr/bin/google-chrome";
     wss_url := None; cdp_url := None; browser_type := "chromium";
     user_data_dir := None; use_existing_browser := false;
     proxy := None; _force_keep_browser_alive := false |}.

(** Edge, attached to the user's own profile. *)
Definition edge_reuse_config : BrowserConfig :=
  {| headless := false; disable_security := true;
     extra_chromium_args := []; chrome_instance_path := None;
     wss_url := None; cdp_url := None; browser_type := "msedge";
     user_data_dir := Some "/home/u/.config/microsoft-edge";
     use_existing_browser := true;
     proxy := None; _force_keep_browser_alive := false |}.

(** Edge on a temporary copy of the user's profile. *)
Definition edge_profile_config : BrowserConfig :=
  {| headless := false; disable_security := true;
     extra_chromium_args := []; chrome_instance_path := None;
     wss_url := None; cdp_url := None; browser_type := "msedge";
     user_data_dir := Some "/home/u/.config/microsoft-edge";
     use_existing_browser := false;
     proxy := None; _force_keep_browser_alive := false |}.

Definition edge_installed : string -> bool :=
  fun p => String.eqb p "/usr/bin/microsoft-edge".

(** Nothing ever listens on port 9222 and attaching fails. *)
Definition unreachable_world : World :=
  make_world "Linux" refused no_files (Failed "connect ECONNREFUSED")
    (Done tt) dirs_ok.

(** The probe of the debug endpoint runs into its read timeout. *)
Definition read_timeout_world : World :=
  make_world "Linux" (fun _ => HttpOtherError "Read timed out.")
    edge_installed (Done 2) (Done tt) dirs_ok.

(** Edge is installed; whatever listens on port 9222 answers 503. *)
Definition busy_endpoint_world : World :=
  make_world "Linux" (fun _ => HttpStatus 503)
    edge_installed (Done 2) (Done tt) dirs_ok.

Definition edge_starting_log : event :=
  EvLog INFO "Starting Edge with remote debugging enabled".

Definition edge_timeout : exn :=
  mkExn TimeoutError "Failed to start Edge browser in time".

Definition is_probe (ev : event) : bool :=
  match ev with
  | EvRequestsGet _ _ => true
  | _ => false
  end.

Definition is_sleep (ev : event) : bool :=
  match ev with
  | EvAsyncioSleep _ | EvTimeSleep _ => true
  | _ => false
  end.

Definition count_probes (tr : history) : nat :=
  List.length (filter is_probe tr).

(** A source profile that holds [Default/Cookies] only, and a target
    in which [Default] cannot be created (a file of that name is in the
    way). *)
Definition default_not_creatable : World :=
  make_world "Linux" refused
    (fun p => String.eqb p "/src/Default/Cookies")
    (Done 2) (Done tt)
    (fun p =>
       if String.eqb p "/tmp/edge_profile_x/Default"
       then Failed "[Errno 17] File exists: '/tmp/edge_profile_x/Default'"
       else Done tt).

(** Linux with Edge installed, nothing on port 9222, an empty source
    profile; temporary directories are named [/tmp/edge_profile_x]. *)
Definition edge_world : World :=
  make_world "Linux" refused edge_installed (Done 2) (Done tt) dirs_ok.

(** The argument lists of the launches in a trace. *)
Definition launched_args (tr : history) : list (list string) :=
  flat_map (fun ev => match ev with
                      | EvLaunch _ _ _ args _ => [args]
                      | _ => []
                      end) tr.

(** The storage states of the contexts opened in a trace. *)
Definition opened_contexts (tr : history) : list (option string) :=
  flat_map (fun ev => match ev with
                      | EvNewContext _ st => [st]
                      | _ => []
                      end) tr.

(** [self.temp_dir = v] and [self.browser_context = v] on the record. *)
Definition with_temp_dir (v : attr string) (b : Browser) : Browser :=
  {| config := config b; playwright := playwright b;
     playwright_browser := playwright_browser b;
     browser_context := browser_context b;
     temp_dir := v;
     disable_security_args := disable_security_args b |}.

Definition with_browser_context (v : attr handle) (b : Browser) : Browser :=
  {| config := config b; playwright := playwright b;
     playwright_browser := playwright_browser b;
     browser_context := v;
     temp_dir := temp_dir b;
     disable_security_args := disable_security_args b |}.

(** Frame: a computation that leaves the attributes alone. *)
Definition keeps_self {A} (m : M A) : Prop :=
  forall s, self (snd (m s)) = self s.

(** What [_get_storage_state_path] finds for a glob result. *)
Definition storage_state_of (found : list string) : option string :=
  match found with
  | first :: _ => Some (os_path_dirname first)
  | [] => None
  end.

Definition cookies_pattern (profile_dir : string) : string :=
  os_path_join profile_dir ["**"; "Cookies"].

(** The arguments of the Edge launch on a temporary profile. *)
Definition edge_profile_args (cfg : BrowserConfig) : list string :=
  (launch_args ++ extra_chromium_args cfg
     ++ ["--no-private-window"; "--no-incognito"])%list.

(** [edge_world] after the Edge executable was found. *)
Definition edge_found : State :=
  {| self := __init__ edge_profile_config;
     trace := [EvExists "/usr/bin/microsoft-edge"] |}.

(** [edge_world] after the (empty) source profile was copied. *)
Definition edge_profile_copied : State :=
  {| self := with_temp_dir (Obj "/tmp/edge_profile_x")
               (__init__ edge_profile_config);
     trace :=
       [ EvExists "/usr/bin/microsoft-edge";
         EvLog INFO
           "Launching Microsoft Edge with user data directory: /home/u/.config/microsoft-edge";
         EvTemporaryDirectory edge_profile_prefix;
         EvMakedirs "/tmp/edge_profile_x";
         EvExists "/home/u/.config/microsoft-edge/Default/Cookies";
         EvExists "/home/u/.config/microsoft-edge/Default/Network/Cookies";
         EvExists "/home/u/.config/microsoft-edge/Cookies";
         EvExists "/home/u/.config/microsoft-edge/Default/Local Storage";
         EvExists "/home/u/.config/microsoft-edge/Local Storage" ] |}.

(** Does an argument list name a user-data directory? *)
Definition names_user_data_dir (args : list string) : bool :=
  existsb (String.prefix "--user-data-dir=") args.

(** Does an argument list hold one of the flags [flags]? *)
Definition has_flag_of (flags args : list string) : bool :=
  existsb (fun a => existsb (String.eqb a) flags) args.

(** Frame of the connection strategies: they write [temp_dir] and
    [browser_context] at most. *)
Definition setup_frame (s s' : State) : Prop :=
  config (self s') = config (self s) /\
  disable_security_args (self s') = disable_security_args (self s) /\
  playwright (self s') = playwright (self s) /\
  playwright_browser (self s') = playwright_browser (self s).

Definition writes_profile_handles_only {A} (m : M A) : Prop :=
  forall s, setup_frame s (snd (m s)).

(** The teardown steps that [close] has to make for a manager, in the
    order of its body. *)
Definition expected_steps (b : Browser) : list event :=
  ((match browser_context b with Obj c => [EvContextClose c] | _ => [] end)
   ++ (match playwright_browser b with Obj p => [EvBrowserClose p] | _ => [] end)
   ++ (match playwright b with Obj p => [EvPlaywrightStop p] | _ => [] end)
   ++ (match temp_dir b with Obj d => [EvTempCleanup d] | _ => [] end))%list.

(** The events a computation added to the trace of [s]. *)
Definition added {A} (s : State) (r : result A * State) : history :=
  skipn (List.length (trace s)) (trace (snd r)).

(** An attribute that [del] has not removed. *)
Definition bound {A} (a : attr A) : Prop := a <> Deleted.

(** Edge with no user-data directory. *)
Definition edge_plain_config : BrowserConfig :=
  {| headless := false; disable_security := true;
     extra_chromium_args := ["--start-maximized"];
     chrome_instance_path := None;
     wss_url := None; cdp_url := None; browser_type := "msedge";
     user_data_dir := None; use_existing_browser := true;
     proxy := None; _force_keep_browser_alive := false |}.

(** A browser kind the engine does not know. *)
Definition opera_config : BrowserConfig :=
  {| headless := true; disable_security := false;
     extra_chromium_args := ["--lang=en"];
     chrome_instance_path := None;
     wss_url := None; cdp_url := None; browser_type := "opera";
     user_data_dir := None; use_existing_browser := false;
     proxy := None; _force_keep_browser_alive := false |}.

(** Windows with both known Edge installs present. *)
Definition windows_two_edges : World :=
  make_world "Windows" refused (fun _ => true) (Done 2) (Done tt) dirs_ok.

(** Linux with Edge installed, nothing ever listening on port 9222. *)
Definition edge_never_up : World :=
  make_world "Linux" refused edge_installed (Done 2) (Done tt) dirs_ok.

(** Linux with Edge installed and already listening on port 9222;
    attaching gives [cdp]. *)
Definition edge_listening (cdp : outcome handle) : World :=
  make_world "Linux" (fun _ => HttpStatus 200) edge_installed cdp (Done tt)
    dirs_ok.

(** The arguments of the Edge launch on a disposable profile. *)
Definition edge_disposable_args (b : Browser) (tmp : string) : list string :=
  ((launch_args ++ disable_security_args b)
     ++ extra_chromium_args (config b)
     ++ [("--user-data-dir=" ++ tmp)%string])%list.

(** The arguments of the launch of the other browser kinds. *)
Definition standard_args (b : Browser) : list string :=
  (launch_args ++ disable_security_args b ++ extra_chromium_args (config b))%list.

(** The three setup methods behind their guards, for an endpoint or
    path that is set. *)
Definition cdp_body (w : World) (url : string) : M handle :=
  log INFO ("Connecting to remote browser via CDP " ++ url) ;;;
  connect_over_cdp w url None.

Definition wss_body (w : World) (url : string) : M handle :=
  log INFO ("Connecting to remote browser via WSS " ++ url) ;;;
  call (EvConnect url) (fun h => pw_connect w h url) PlaywrightError.

Definition instance_body (w : World) (path : string) : M handle :=
  found <- probe_existing w "Reusing existing Chrome instance"
             (log DEBUG "No existing Chrome instance found, starting a new one") ;;
  match found with
  | Some browser => ret browser
  | None => start_new_chrome w path
  end.

(** A directory name as [os.path.join] likes it: not empty, no trailing
    slash. *)
Definition wf_dir (d : string) : Prop :=
  d <> EmptyString /\ endswith_sep d = false.

(** [src] does not occur in [rel]: [rel.replace(src, '')] is [rel]. *)
Definition clear_of (src rel : string) : Prop := str_remove src rel = rel.

(** A world with a full source profile, in which every file-system call
    succeeds. *)
Definition full_profile_world : World :=
  make_world "Linux" refused (fun _ => true) (Done 2) (Done tt) dirs_ok.

(** A full source profile on a file system that refuses every copy. *)
Definition copies_fail_world : World :=
  {| platform_system := "Linux";
     async_playwright_start := fun _ => Done 1;
     pw_connect_over_cdp := fun _ _ _ => Done 2;
     pw_connect := fun _ _ => Done 2;
     pw_launch := fun _ _ _ _ _ _ => Done 2;
     pw_has_other_attr := fun _ => false;
     pw_new_context := fun _ _ _ => Done 3;
     pw_context_close := fun _ _ => Done tt;
     pw_browser_close := fun _ _ => Done tt;
     pw_stop := fun _ _ => Done tt;
     requests_get := fun _ _ _ => HttpConnectionError "connection refused";
     subprocess_Popen := fun _ _ => Done tt;
     tempfile_TemporaryDirectory := fun _ _ => Done "/tmp/edge_profile_x";
     tempdir_cleanup := fun _ _ => Done tt;
     os_path_exists := fun _ _ => true;
     os_path_isdir := fun _ _ => true;
     os_makedirs := fun _ _ => Done tt;
     shutil_copy2 := fun _ _ _ => Failed "[Errno 13] Permission denied";
     shutil_copytree := fun _ _ _ => Failed "[Errno 13] Permission denied";
     glob_glob := fun _ _ => [] |}.

(** An operating system that [_get_edge_path] does not know. *)
Definition freebsd_world : World :=
  make_world "FreeBSD" refused no_files (Done 2) (Done tt) dirs_ok.

(** The record of a failed attach after the spawn of Chrome. *)
Definition chrome_start_failure_log (msg : string) : event :=
  EvLog ERROR ("Failed to start a new Chrome instance.: " ++ msg).

(** Frame: a state that kept the configuration of another one. *)
Definition same_config (s s' : State) : Prop :=
  config (self s') = config (self s) /\
  disable_security_args (self s') = disable_security_args (self s).

Definition preserves_config {A} (m : M A) : Prop :=
  forall s, same_config s (snd (m s)).

(* ================================================================== *)
(** ** Teardown: [close] *)

Local Open Scope list_scope.

Lemma reset_handles_spec (s : State) :
  reset_handles s =
  (Ok tt, {| self := cleared (self s);
             trace := trace s ++ finalized (self s) ++ [EvGcCollect] |}).
Proof.
  destruct s as [[cfg pw pb bc td dsa] tr].
  destruct td as [| |d]; unfold reset_handles, finalized; cbn.
  - reflexivity.
  - reflexivity.
  - unfold emit, record_event, cleared. cbn.
    rewrite <- app_assoc. reflexivity.
Qed.

(** *** Frame: no method touches the configuration *)

Lemma same_config_refl s : same_config s s.
Proof. split; reflexivity. Qed.

Lemma same_config_trans s1 s2 s3 :
  same_config s1 s2 -> same_config s2 s3 -> same_config s1 s3.
Proof. intros [A B] [C D]; split; congruence. Qed.

Lemma preserves_ret {A} (a : A) : preserves_config (ret a).
Proof. intro s; apply same_config_refl. Qed.

Lemma preserves_raise {A} (e : exn) : preserves_config (@raise A e).
Proof. intro s; apply same_config_refl. Qed.

Lemma preserves_bind {A B} (m : M A) (k : A -> M B) :
  preserves_config m -> (forall a, preserves_config (k a)) ->
  preserves_config (bind m k).
Proof.
  intros Hm Hk s. unfold bind. specialize (Hm s).
  destruct (m s) as [[a | e] s1]; simpl in *.
  - eapply same_config_trans; [exact Hm | apply Hk].
  - exact Hm.
Qed.

Lemma preserves_try_except {A} (m : M A) c (h : exn -> M A) :
  preserves_config m -> (forall e, preserves_config (h e)) ->
  preserves_config (try_except m c h).
Proof.
  intros Hm Hh s. unfold try_except. specialize (Hm s).
  destruct (m s) as [[a | e] s1]; simpl in *.
  - exact Hm.
  - destruct (c e); [|exact Hm].
    eapply same_config_trans; [exact Hm | apply Hh].
Qed.

Lemma preserves_emit ev : preserves_config (emit ev).
Proof. intro s; split; reflexivity. Qed.

Lemma preserves_log l m : preserves_config (log l m).
Proof. apply preserves_emit. Qed.

Lemma preserves_call {A} ev (o : history -> outcome A) cls :
  preserves_config (call ev o cls).
Proof. intro s; unfold call; destruct (o (trace s)); split; reflexivity. Qed.

Lemma preserves_query {A} ev (o : history -> A) :
  preserves_config (query ev o).
Proof. intro s; split; reflexivity. Qed.

Lemma preserves_get_self : preserves_config get_self.
Proof. intro s; apply same_config_refl. Qed.

Lemma preserves_getattr {A} n (f : Browser -> attr A) :
  preserves_config (getattr_ n f).
Proof.
  intro s; unfold getattr_; destruct (f (self s)); apply same_config_refl.
Qed.

Lemma preserves_set_playwright v : preserves_config (set_playwright v).
Proof. intro s; split; reflexivity. Qed.

Lemma preserves_set_playwright_browser v :
  preserves_config (set_playwright_browser v).
Proof. intro s; split; reflexivity. Qed.

Lemma preserves_set_browser_context v :
  preserves_config (set_browser_context v).
Proof. intro s; split; reflexivity. Qed.

Lemma preserves_set_temp_dir v : preserves_config (set_temp_dir v).
Proof. intro s; split; reflexivity. Qed.

Create HintDb frame.
#[local] Hint Resolve preserves_ret preserves_raise preserves_emit
  preserves_log preserves_call preserves_query preserves_get_self
  preserves_getattr preserves_set_playwright preserves_set_playwright_browser
  preserves_set_browser_context preserves_set_temp_dir : frame.

Ltac frame :=
  repeat first
    [ solve [auto with frame]
    | apply preserves_bind; [| intros ?; cbv beta ]
    | apply preserves_try_except; [| intros ?; cbv beta ]
    | match goal with
      | |- preserves_config (match ?x with _ => _ end) => destruct x
      | |- preserves_config (if ?x then _ else _) => destruct x
      end ].

Lemma preserves_close_context w : preserves_config (close_context w).
Proof. unfold close_context; frame. Qed.

Lemma preserves_close_playwright_browser w :
  preserves_config (close_playwright_browser w).
Proof. unfold close_playwright_browser; frame. Qed.

Lemma preserves_stop_playwright w : preserves_config (stop_playwright w).
Proof. unfold stop_playwright; frame. Qed.

Lemma preserves_cleanup_temp_dir w : preserves_config (cleanup_temp_dir w).
Proof. unfold cleanup_temp_dir; frame. Qed.

#[local] Hint Resolve preserves_close_context
  preserves_close_playwright_browser preserves_stop_playwright
  preserves_cleanup_temp_dir : frame.

(** *** A handler for every exception leaves nothing to propagate *)

Lemma try_except_any_ok (m : M unit) (h : exn -> M unit) (s : State) :
  (forall e s1, fst (h e s1) = Ok tt) ->
  fst (try_except m any_Exception h s) = Ok tt.
Proof.
  intro Hh. unfold try_except.
  destruct (m s) as [[[] | e] s1]; simpl; [reflexivity | apply Hh].
Qed.

Lemma cleared_same_config s s' :
  same_config s s' -> cleared (self s') = cleared (self s).
Proof. intros [A B]. unfold cleared. rewrite A, B. reflexivity. Qed.

Lemma close_unfold w s :
  close w s =
  (fst (close_body w s),
   {| self := cleared (self (snd (close_body w s)));
      trace := trace (snd (close_body w s))
               ++ finalized (self (snd (close_body w s)))
               ++ [EvGcCollect] |}).
Proof.
  unfold close, try_finally.
  destruct (close_body w s) as [r s1]. rewrite reset_handles_spec.
  reflexivity.
Qed.

Lemma close_body_ok w s : fst (close_body w s) = Ok tt.
Proof. apply try_except_any_ok. reflexivity. Qed.

Lemma close_body_frame w : preserves_config (close_body w).
Proof. unfold close_body, log_close_failure; frame. Qed.

Lemma close_result (w : World) (s : State) :
  close w s =
  (Ok tt, {| self := cleared (self s);
             trace := trace (snd (close_body w s))
                      ++ finalized (self (snd (close_body w s)))
                      ++ [EvGcCollect] |}).
Proof.
  rewrite close_unfold, close_body_ok.
  rewrite (cleared_same_config _ _ (close_body_frame w s)).
  reflexivity.
Qed.

Lemma close_body_nothing_to_do w s :
  handles_absent (self s) -> close_body w s = (Ok tt, s).
Proof.
  intros (A & B & C & D).
  destruct s as [[cfg pw pb bc td dsa] tr]; simpl in *; subst.
  unfold close_body, try_except, bind, get_self; simpl.
  destruct (_force_keep_browser_alive cfg); reflexivity.
Qed.

Lemma cleared_absent b : handles_absent (cleared b).
Proof. repeat split. Qed.

Lemma cleared_idem b : cleared (cleared b) = cleared b.
Proof. reflexivity. Qed.

(** C2. For every manager state, [close] returns normally, whatever its
    teardown steps do; afterwards the four owned handles (playwright,
    playwright_browser, browser_context, temp_dir) are [None]; and a
    second [close] right after returns normally too, attempts no
    teardown step and changes nothing: it only runs [gc.collect()]. *)
Theorem close_clears_handles_and_is_idempotent (w : World) (s : State) :
  fst (close w s) = Ok tt /\
  handles_absent (self (snd (close w s))) /\
  close w (snd (close w s)) =
    (Ok tt, record_event EvGcCollect (snd (close w s))).
Proof.
  rewrite (close_result w s). simpl. repeat split.
  rewrite close_result. simpl.
  rewrite close_body_nothing_to_do by apply cleared_absent.
  reflexivity.
Qed.

(** *** What a failing step does to the rest of the teardown *)

Lemma close_body_steps w s :
  _force_keep_browser_alive (config (self s)) = false ->
  close_body w s =
  try_except
    (close_context w ;;; close_playwright_browser w ;;;
     stop_playwright w ;;; cleanup_temp_dir w)
    any_Exception log_close_failure s.
Proof.
  intro F. unfold close_body, try_except, bind at 1, get_self.
  rewrite F. reflexivity.
Qed.

Ltac run_step :=
  unfold close_context, close_playwright_browser, stop_playwright,
    cleanup_temp_dir, try_except, bind, getattr_, call, log, emit,
    set_browser_context, set_playwright_browser, set_playwright,
    set_temp_dir, set_self, get_self, ret, any_Exception, record_event.

Lemma close_context_keeps_temp_dir w s :
  temp_dir (self (snd (close_context w s))) = temp_dir (self s).
Proof.
  run_step. destruct (browser_context (self s)); simpl; try reflexivity.
  destruct (pw_context_close w (trace s) a); reflexivity.
Qed.

Lemma close_playwright_browser_keeps_temp_dir w s :
  temp_dir (self (snd (close_playwright_browser w s))) = temp_dir (self s).
Proof.
  run_step. destruct (playwright_browser (self s)); simpl; try reflexivity.
  destruct (pw_browser_close w (trace s) a); reflexivity.
Qed.

Lemma stop_playwright_keeps_temp_dir w s :
  temp_dir (self (snd (stop_playwright w s))) = temp_dir (self s).
Proof.
  run_step. destruct (playwright (self s)); simpl; try reflexivity.
  destruct (pw_stop w (trace s) a); reflexivity.
Qed.

(** Closing the context records the call and raises what the engine
    raises. *)
Lemma close_context_fails w s c msg :
  browser_context (self s) = Obj c ->
  pw_context_close w (trace s) c = Failed msg ->
  close_context w s =
  (Raise (mkExn PlaywrightError msg), record_event (EvContextClose c) s).
Proof.
  intros B F. run_step. rewrite B; simpl. rewrite F. reflexivity.
Qed.

(** The removal of the temporary directory has a guard of its own. *)
Lemma cleanup_temp_dir_guarded w s d :
  temp_dir (self s) = Obj d ->
  fst (cleanup_temp_dir w s) = Ok tt /\
  trace (snd (cleanup_temp_dir w s)) =
    trace s ++ EvTempCleanup d ::
      match tempdir_cleanup w (trace s) d with
      | Done _ => []
      | Failed msg => [cleanup_failure_log msg]
      end.
Proof.
  intro T. run_step. rewrite T; simpl.
  destruct (tempdir_cleanup w (trace s) d); simpl;
    rewrite <- ?app_assoc; split; reflexivity.
Qed.

Lemma added_app {A} (s : State) (r : result A * State) d :
  trace (snd r) = trace s ++ d -> added s r = d.
Proof.
  intro H. unfold added. rewrite H.
  rewrite skipn_app, skipn_all, Nat.sub_diag. reflexivity.
Qed.

Lemma finalized_temp_dir b b' :
  temp_dir b = temp_dir b' -> finalized b = finalized b'.
Proof. intro H. unfold finalized. rewrite H. reflexivity. Qed.

Lemma cleanup_temp_dir_clears w s d :
  temp_dir (self s) = Obj d ->
  temp_dir (self (snd (cleanup_temp_dir w s))) = PyNone.
Proof.
  intro T. run_step. rewrite T; simpl.
  destruct (tempdir_cleanup w (trace s) d); reflexivity.
Qed.

Lemma close_trace w s :
  trace (snd (close w s)) =
  trace (snd (close_body w s))
  ++ finalized (self (snd (close_body w s))) ++ [EvGcCollect].
Proof. rewrite close_result. reflexivity. Qed.

Lemma handler_state (m : M unit) s e s1 :
  m s = (Raise e, s1) ->
  snd (try_except m any_Exception log_close_failure s) =
  record_event (close_failure_log e) s1.
Proof. intro H. unfold try_except. rewrite H. reflexivity. Qed.

Lemma no_handler_state (m : M unit) s s1 :
  m s = (Ok tt, s1) ->
  snd (try_except m any_Exception log_close_failure s) = s1.
Proof. intro H. unfold try_except. rewrite H. reflexivity. Qed.

Ltac chain_steps :=
  unfold bind;
  repeat match goal with
         | H : ?m ?s = _ |- context [?m ?s] => rewrite H
         end.

(** Whatever the teardown steps do, a temporary directory that the
    manager holds is removed by [close]: by [cleanup()] or, when that
    call is not reached, by the finalizer. *)
Lemma close_removes_temp_dir w s d :
  temp_dir (self s) = Obj d ->
  exists delta,
    trace (snd (close w s)) = trace s ++ delta /\
    (In (EvTempCleanup d) delta \/ In (EvTempFinalize d) delta).
Proof.
  destruct s as [[[hl ds ex cip wss cdp bt udd ueb px keep] pw pb bc td dsa] tr].
  cbn [self temp_dir]. intros ->.
  destruct keep, bc as [| |c], pb as [| |b], pw as [| |p];
    cbv [close try_finally close_body try_except bind get_self negb
         close_context close_playwright_browser stop_playwright
         cleanup_temp_dir reset_handles drop_temp_dir log_close_failure
         log emit call
         getattr_ set_browser_context set_playwright_browser set_playwright
         set_temp_dir set_self ret any_Exception record_event
         self trace config _force_keep_browser_alive playwright
         playwright_browser browser_context temp_dir disable_security_args
         fst snd];
    repeat (match goal with
            | |- context [pw_context_close ?a ?h ?x] =>
                destruct (pw_context_close a h x)
            | |- context [pw_browser_close ?a ?h ?x] =>
                destruct (pw_browser_close a h x)
            | |- context [pw_stop ?a ?h ?x] => destruct (pw_stop a h x)
            | |- context [tempdir_cleanup ?a ?h ?x] =>
                destruct (tempdir_cleanup a h x)
            end; cbv beta iota);
    rewrite <- ?app_assoc; eexists; (split; [reflexivity|]);
    cbn [app In]; tauto.
Qed.

(** C3 (amended). With force-keep-alive off, an exception raised by any
    teardown step of [close] is caught and logged, [close] returns
    normally and the four handles are cleared.  An exception from
    closing the context, closing the browser or stopping the engine ends
    the explicit teardown: after the record of the failure only the
    [finally] block follows, so the later calls (browser close, engine
    stop, [cleanup()]) are not made.  A temporary directory that the
    manager holds is removed by every [close] all the same: by
    [cleanup()], whose failure is logged by a guard of its own, when the
    three earlier steps did not raise, and otherwise by the finalizer
    of the directory when the [finally] block drops the handle. *)
Theorem close_step_failure_ends_teardown (w : World) (s : State) :
  _force_keep_browser_alive (config (self s)) = false ->
  fst (close w s) = Ok tt /\
  handles_absent (self (snd (close w s))) /\
  (forall c msg,
     browser_context (self s) = Obj c ->
     pw_context_close w (trace s) c = Failed msg ->
     trace (snd (close w s)) =
       trace s ++ [EvContextClose c;
                   close_failure_log (mkExn PlaywrightError msg)]
         ++ finalized (self s) ++ [EvGcCollect]) /\
  (forall e s1,
     close_context w s = (Raise e, s1) ->
     trace (snd (close w s)) =
       trace s1 ++ [close_failure_log e]
         ++ finalized (self s) ++ [EvGcCollect]) /\
  (forall e s1 s2,
     close_context w s = (Ok tt, s1) ->
     close_playwright_browser w s1 = (Raise e, s2) ->
     trace (snd (close w s)) =
       trace s2 ++ [close_failure_log e]
         ++ finalized (self s) ++ [EvGcCollect]) /\
  (forall e s1 s2 s3,
     close_context w s = (Ok tt, s1) ->
     close_playwright_browser w s1 = (Ok tt, s2) ->
     stop_playwright w s2 = (Raise e, s3) ->
     trace (snd (close w s)) =
       trace s3 ++ [close_failure_log e]
         ++ finalized (self s) ++ [EvGcCollect]) /\
  (forall d s1 s2 s3,
     temp_dir (self s) = Obj d ->
     close_context w s = (Ok tt, s1) ->
     close_playwright_browser w s1 = (Ok tt, s2) ->
     stop_playwright w s2 = (Ok tt, s3) ->
     trace (snd (close w s)) =
       trace s3 ++ EvTempCleanup d ::
         match tempdir_cleanup w (trace s3) d with
         | Done _ => []
         | Failed msg => [cleanup_failure_log msg]
         end ++ [EvGcCollect]) /\
  (forall d,
     temp_dir (self s) = Obj d ->
     In (EvTempCleanup d) (added s (close w s)) \/
     In (EvTempFinalize d) (added s (close w s))).
Proof.
  intro F.
  assert (K1 : forall r s1, close_context w s = (r, s1) ->
               temp_dir (self s1) = temp_dir (self s)).
  { intros r s1 H. rewrite <- (close_context_keeps_temp_dir w s), H.
    reflexivity. }
  assert (K2 : forall s1 r s2, close_playwright_browser w s1 = (r, s2) ->
               temp_dir (self s2) = temp_dir (self s1)).
  { intros s1 r s2 H.
    rewrite <- (close_playwright_browser_keeps_temp_dir w s1), H.
    reflexivity. }
  assert (K3 : forall s2 r s3, stop_playwright w s2 = (r, s3) ->
               temp_dir (self s3) = temp_dir (self s2)).
  { intros s2 r s3 H. rewrite <- (stop_playwright_keeps_temp_dir w s2), H.
    reflexivity. }
  assert (Hraise : forall e s1,
             close_context w s = (Raise e, s1) ->
             trace (snd (close w s)) =
               trace s1 ++ [close_failure_log e]
                 ++ finalized (self s) ++ [EvGcCollect]).
  { intros e s1 H1. rewrite close_trace, close_body_steps by exact F.
    rewrite (handler_state _ s e s1) by (chain_steps; reflexivity).
    cbn [record_event trace self].
    rewrite (finalized_temp_dir (self s1) (self s) (K1 _ _ H1)).
    rewrite <- app_assoc. reflexivity. }
  split; [rewrite close_result; reflexivity|].
  split; [rewrite close_result; apply cleared_absent|].
  split.
  { intros c msg B Fl.
    rewrite (Hraise _ _ (close_context_fails w s c msg B Fl)).
    unfold record_event; cbn [trace]. rewrite <- !app_assoc. reflexivity. }
  split; [exact Hraise|].
  split.
  { intros e s1 s2 H1 H2. rewrite close_trace, close_body_steps by exact F.
    rewrite (handler_state _ s e s2) by (chain_steps; reflexivity).
    cbn [record_event trace self].
    rewrite (finalized_temp_dir (self s2) (self s))
      by (rewrite (K2 _ _ _ H2); exact (K1 _ _ H1)).
    rewrite <- app_assoc. reflexivity. }
  split.
  { intros e s1 s2 s3 H1 H2 H3.
    rewrite close_trace, close_body_steps by exact F.
    rewrite (handler_state _ s e s3) by (chain_steps; reflexivity).
    cbn [record_event trace self].
    rewrite (finalized_temp_dir (self s3) (self s))
      by (rewrite (K3 _ _ _ H3), (K2 _ _ _ H2); exact (K1 _ _ H1)).
    rewrite <- app_assoc. reflexivity. }
  split.
  { intros d s1 s2 s3 T H1 H2 H3.
    assert (T3 : temp_dir (self s3) = Obj d).
    { rewrite (K3 _ _ _ H3), (K2 _ _ _ H2), (K1 _ _ H1). exact T. }
    destruct (cleanup_temp_dir_guarded w s3 d T3) as [Ok4 Tr4].
    pose proof (cleanup_temp_dir_clears w s3 d T3) as Cl.
    rewrite close_trace, close_body_steps by exact F.
    rewrite (no_handler_state _ s (snd (cleanup_temp_dir w s3))).
    - rewrite Tr4. unfold finalized. rewrite Cl.
      rewrite <- app_assoc. reflexivity.
    - chain_steps. destruct (cleanup_temp_dir w s3) as [r s4].
      simpl in Ok4. subst r. reflexivity. }
  intros d T. destruct (close_removes_temp_dir w s d T) as (delta & Tr & I).
  rewrite (added_app s (close w s) delta Tr). exact I.
Qed.

(** C3, as stated, fails: every handle is live and closing the context
    raises; the browser is then not closed and the engine not stopped,
    and the temporary directory is left to its finalizer. *)
Lemma close_context_failure_skips_browser_and_engine :
  playwright_browser (self live_state) = Obj 2 /\
  playwright (self live_state) = Obj 1 /\
  ~ In (EvBrowserClose 2)
       (trace (snd (close context_close_fails live_state))) /\
  ~ In (EvPlaywrightStop 1)
       (trace (snd (close context_close_fails live_state))) /\
  trace (snd (close context_close_fails live_state)) =
    [EvContextClose 3;
     close_failure_log (mkExn PlaywrightError "Target closed");
     EvTempFinalize "/tmp/edge_profile_x";
     EvGcCollect].
Proof.
  split; [reflexivity|]. split; [reflexivity|].
  split; [|split; [|reflexivity]];
    vm_compute; intros [H | [H | [H | [H | []]]]]; discriminate H.
Qed.

Lemma close_step_failure_ends_teardown_witness :
  trace (snd (close context_close_fails live_state)) =
  [EvContextClose 3;
   close_failure_log (mkExn PlaywrightError "Target closed");
   EvTempFinalize "/tmp/edge_profile_x";
   EvGcCollect].
Proof.
  exact (proj1 (proj2 (proj2 (close_step_failure_ends_teardown
                                context_close_fails live_state eq_refl)))
           3 "Target closed" eq_refl eq_refl).
Defined.

(** C4 (amended). With force-keep-alive on, [close] makes no teardown
    call (no context close, no browser close, no engine stop, no
    [cleanup()]) and returns normally, but its [finally] block still
    binds the four handles to [None]; when [temp_dir] held a temporary
    directory, dropping that handle lets the finalizer remove the
    directory.  The configuration is untouched. *)
Theorem close_keep_alive_resets_handles (w : World) (s : State) :
  _force_keep_browser_alive (config (self s)) = true ->
  close w s =
  (Ok tt, {| self := cleared (self s);
             trace := trace s ++ finalized (self s) ++ [EvGcCollect] |}).
Proof.
  intro F. rewrite close_result.
  assert (B : close_body w s = (Ok tt, s)).
  { unfold close_body, try_except, bind, get_self. rewrite F.
    destruct s; reflexivity. }
  rewrite B. reflexivity.
Qed.

Lemma close_keep_alive_resets_handles_witness :
  close quiet_world kept_alive_state =
  (Ok tt, {| self := cleared (self kept_alive_state);
             trace := [EvTempFinalize "/tmp/edge_profile_x"; EvGcCollect] |}).
Proof.
  exact (close_keep_alive_resets_handles quiet_world kept_alive_state eq_refl).
Defined.

(** C4, as stated, fails: force-keep-alive is on, the handles are live
    before [close] and [None] after it, and the temporary directory is
    removed. *)
Lemma close_keep_alive_changes_handles :
  _force_keep_browser_alive (config (self kept_alive_state)) = true /\
  self (snd (close quiet_world kept_alive_state)) <> self kept_alive_state /\
  playwright_browser (self kept_alive_state) = Obj 2 /\
  playwright_browser (self (snd (close quiet_world kept_alive_state)))
    = PyNone /\
  In (EvTempFinalize "/tmp/edge_profile_x")
     (trace (snd (close quiet_world kept_alive_state))).
Proof.
  split; [reflexivity|]. split; [|split; [|split]]; try reflexivity.
  - intro H. apply (f_equal playwright_browser) in H. discriminate H.
  - vm_compute. left. reflexivity.
Qed.

(* ================================================================== *)
(** ** Edge executable discovery: [_get_edge_path] *)

Lemma first_existing_none w paths s :
  (forall h p, In p paths -> os_path_exists w h p = false) ->
  first_existing w paths s =
  (Ok None, {| self := self s; trace := trace s ++ map EvExists paths |}).
Proof.
  revert s. induction paths as [|q qs IH]; intros s H; simpl.
  - rewrite app_nil_r. destruct s; reflexivity.
  - unfold bind, query. rewrite (H _ q) by (left; reflexivity).
    cbv beta iota. rewrite IH by (intros; apply H; right; assumption).
    unfold record_event; simpl. rewrite <- app_assoc. reflexivity.
Qed.

Lemma first_existing_only w paths p s :
  In p paths ->
  (forall h, os_path_exists w h p = true) ->
  (forall h q, In q paths -> q <> p -> os_path_exists w h q = false) ->
  fst (first_existing w paths s) = Ok (Some p).
Proof.
  revert s. induction paths as [|q qs IH]; intros s I T F; [destruct I|].
  simpl. unfold bind, query.
  destruct (string_dec q p) as [-> | N].
  - rewrite T. reflexivity.
  - rewrite (F _ q) by (try left; reflexivity || exact N).
    cbv beta iota. apply IH.
    + destruct I as [E | I]; [contradiction | exact I].
    + exact T.
    + intros h r Ir; apply F; right; exact Ir.
Qed.

(** X16. On a platform string other than Windows, Darwin and Linux the
    discovery raises the OS-support error, which names the platform, and
    probes nothing. *)
Lemma edge_path_unsupported_system w s :
  platform_system w <> "Windows" ->
  platform_system w <> "Darwin" ->
  platform_system w <> "Linux" ->
  _get_edge_path w s =
  (Raise (mkExn OSError
            ("Unsupported operating system: " ++ platform_system w)%string), s).
Proof.
  intros W D L. unfold _get_edge_path.
  apply String.eqb_neq in W, D, L. rewrite W, D, L. reflexivity.
Qed.

(** On Windows and on Linux, with none of the known paths present, the
    discovery raises the not-found error after probing each of them. *)
Lemma edge_path_not_found w s :
  platform_system w = "Windows" \/ platform_system w = "Linux" ->
  (forall h p, In p (known_edge_paths (platform_system w)) ->
               os_path_exists w h p = false) ->
  _get_edge_path w s =
  (Raise edge_not_found,
   {| self := self s;
      trace := trace s ++ map EvExists (known_edge_paths (platform_system w)) |}).
Proof.
  intros [E | E] H; unfold _get_edge_path, known_edge_paths in *.
  - assert (W : String.eqb (platform_system w) "Windows" = true)
      by (rewrite E; reflexivity).
    rewrite W in *. unfold bind.
    rewrite first_existing_none by exact H. reflexivity.
  - assert (W : String.eqb (platform_system w) "Windows" = false)
      by (rewrite E; reflexivity).
    assert (D : String.eqb (platform_system w) "Darwin" = false)
      by (rewrite E; reflexivity).
    assert (L : String.eqb (platform_system w) "Linux" = true)
      by (rewrite E; reflexivity).
    rewrite W, D, L in *. unfold bind.
    rewrite first_existing_none by exact H. reflexivity.
Qed.

(** On every supported platform, when exactly one known path exists,
    the discovery returns it. *)
Lemma edge_path_only_one w s p :
  In p (known_edge_paths (platform_system w)) ->
  (forall h, os_path_exists w h p = true) ->
  (forall h q, In q (known_edge_paths (platform_system w)) -> q <> p ->
               os_path_exists w h q = false) ->
  fst (_get_edge_path w s) = Ok p.
Proof.
  unfold known_edge_paths, _get_edge_path.
  destruct (String.eqb (platform_system w) "Windows").
  { intros I T F. unfold bind.
    pose proof (first_existing_only w _ p s I T F) as R.
    destruct (first_existing w windows_edge_paths s) as [r s1].
    simpl in R. subst r. reflexivity. }
  destruct (String.eqb (platform_system w) "Darwin").
  { intros [<- | []] _ _. reflexivity. }
  destruct (String.eqb (platform_system w) "Linux").
  { intros I T F. unfold bind.
    pose proof (first_existing_only w _ p s I T F) as R.
    destruct (first_existing w linux_edge_paths s) as [r s1].
    simpl in R. subst r. reflexivity. }
  intros [].
Qed.

(** On macOS the discovery never looks at the file system. *)
Lemma edge_path_macos_unchecked w s :
  platform_system w = "Darwin" ->
  _get_edge_path w s = (Ok darwin_edge_path, s).
Proof. intro E. unfold _get_edge_path. rewrite E. reflexivity. Qed.

(** C6 (code defect). On macOS with no Edge installed (the app-bundle
    path does not exist) [_get_edge_path] does not raise the not-found
    error that its Windows and Linux branches raise: it returns the
    fixed path, unprobed. *)
Theorem edge_path_macos_missing_is_returned :
  os_path_exists macos_without_edge [] darwin_edge_path = false /\
  _get_edge_path macos_without_edge (fresh_state default_config) =
    (Ok darwin_edge_path, fresh_state default_config) /\
  fst (_get_edge_path macos_without_edge (fresh_state default_config))
    <> Raise edge_not_found.
Proof.
  split; [reflexivity|]. split; [reflexivity|].
  rewrite edge_path_macos_unchecked by reflexivity. discriminate.
Qed.

(* ================================================================== *)
(** ** Connection-strategy selection: [_setup_browser] *)

Lemma actions_app a b : actions (a ++ b) = actions a ++ actions b.
Proof. apply filter_app. Qed.

Lemma logged_init_ok {A} (m : M A) s a s1 :
  m s = (Ok a, s1) -> logged_init m s = (Ok a, s1).
Proof. intro H. unfold logged_init, try_except. rewrite H. reflexivity. Qed.

Lemma logged_init_raise {A} (m : M A) s e s1 :
  m s = (Raise e, s1) ->
  logged_init m s = (Raise e, record_event (init_failure_log e) s1).
Proof. intro H. unfold logged_init, try_except. rewrite H. reflexivity. Qed.

Lemma logged_init_actions {A} (m : M A) s :
  actions (trace (snd (logged_init m s))) = actions (trace (snd (m s))) /\
  fst (logged_init m s) = fst (m s).
Proof.
  destruct (m s) as [[a | e] s1] eqn:H.
  - rewrite (logged_init_ok _ _ _ _ H). split; reflexivity.
  - rewrite (logged_init_raise _ _ _ _ H). simpl.
    rewrite actions_app. simpl. rewrite app_nil_r. split; reflexivity.
Qed.

(** The four branches of [_setup_browser]. *)
Lemma setup_browser_dispatch w pw s :
  _setup_browser w pw s =
  logged_init
    (match truthy (cdp_url (config (self s))) with
     | Some _ => _setup_cdp w pw
     | None =>
         match truthy (wss_url (config (self s))) with
         | Some _ => _setup_wss w pw
         | None =>
             match truthy (chrome_instance_path (config (self s))) with
             | Some _ => _setup_browser_with_instance w pw
             | None => _setup_standard_browser w pw
             end
         end
     end) s.
Proof. reflexivity. Qed.

Lemma setup_cdp_actions w pw s url :
  truthy (cdp_url (config (self s))) = Some url ->
  actions (trace (snd (_setup_cdp w pw s))) =
  actions (trace s) ++ [EvConnectOverCDP url None].
Proof.
  intro H. unfold _setup_cdp, bind, get_self. rewrite H.
  unfold log, emit, connect_over_cdp, call. simpl.
  destruct (pw_connect_over_cdp w _ url None); simpl;
    rewrite !actions_app; simpl; rewrite app_nil_r; reflexivity.
Qed.

Lemma setup_wss_actions w pw s url :
  truthy (wss_url (config (self s))) = Some url ->
  actions (trace (snd (_setup_wss w pw s))) =
  actions (trace s) ++ [EvConnect url].
Proof.
  intro H. unfold _setup_wss, bind, get_self. rewrite H.
  unfold log, emit, call. simpl.
  destruct (pw_connect w _ url); simpl;
    rewrite !actions_app; simpl; rewrite app_nil_r; reflexivity.
Qed.

(** Initialization is the engine start followed by [_setup_browser]. *)
Lemma get_playwright_browser_init w s pw :
  playwright_browser (self s) = PyNone ->
  async_playwright_start w (trace s) = Done pw ->
  get_playwright_browser w s =
  (browser <- _setup_browser w pw ;;
   set_playwright (Obj pw) ;;;
   set_playwright_browser (Obj browser) ;;;
   ret browser) (record_event EvPlaywrightStart s).
Proof.
  intros P S. unfold get_playwright_browser, bind at 1, getattr_.
  rewrite P. unfold _init, bind at 1, call. rewrite S. reflexivity.
Qed.

Lemma init_trace w s pw :
  playwright_browser (self s) = PyNone ->
  async_playwright_start w (trace s) = Done pw ->
  trace (snd (get_playwright_browser w s)) =
    trace (snd (_setup_browser w pw (record_event EvPlaywrightStart s))) /\
  fst (get_playwright_browser w s) =
    fst (_setup_browser w pw (record_event EvPlaywrightStart s)).
Proof.
  intros P S. rewrite (get_playwright_browser_init w s pw P S).
  unfold bind.
  destruct (_setup_browser w pw (record_event EvPlaywrightStart s))
    as [[b | e] s1]; split; reflexivity.
Qed.

(** C1. When [get_playwright_browser] initializes (no browser handle
    yet, engine started), then: with a CDP endpoint set, the only thing
    done besides logging is one [connect_over_cdp] to that endpoint;
    with no CDP endpoint and a WebSocket endpoint set, it is one
    [connect] to that endpoint; with neither, [_setup_browser] runs the
    local-executable path when an executable path is set and the
    standard-launch path otherwise.  An endpoint or path is set when it
    is neither [None] nor empty. *)
Theorem strategy_selection_is_exclusive (w : World) (s : State) (pw : handle) :
  playwright_browser (self s) = PyNone ->
  async_playwright_start w (trace s) = Done pw ->
  let cfg := config (self s) in
  let started := record_event EvPlaywrightStart s in
  (forall url,
     truthy (cdp_url cfg) = Some url ->
     actions (trace (snd (get_playwright_browser w s))) =
       actions (trace s) ++ [EvPlaywrightStart; EvConnectOverCDP url None]) /\
  (forall url,
     truthy (cdp_url cfg) = None ->
     truthy (wss_url cfg) = Some url ->
     actions (trace (snd (get_playwright_browser w s))) =
       actions (trace s) ++ [EvPlaywrightStart; EvConnect url]) /\
  (forall path,
     truthy (cdp_url cfg) = None ->
     truthy (wss_url cfg) = None ->
     truthy (chrome_instance_path cfg) = Some path ->
     _setup_browser w pw started =
       logged_init (_setup_browser_with_instance w pw) started) /\
  (truthy (cdp_url cfg) = None ->
   truthy (wss_url cfg) = None ->
   truthy (chrome_instance_path cfg) = None ->
   _setup_browser w pw started =
     logged_init (_setup_standard_browser w pw) started) /\
  get_playwright_browser w s =
    (browser <- _setup_browser w pw ;;
     set_playwright (Obj pw) ;;;
     set_playwright_browser (Obj browser) ;;;
     ret browser) started.
Proof.
  intros P S cfg started.
  destruct (init_trace w s pw P S) as [T _]. fold started in T.
  repeat split.
  - intros url C. rewrite T, setup_browser_dispatch.
    change (config (self started)) with cfg. rewrite C.
    rewrite (proj1 (logged_init_actions _ _)).
    rewrite (setup_cdp_actions w pw started url C).
    unfold started, record_event; simpl.
    rewrite actions_app, <- app_assoc. reflexivity.
  - intros url C W. rewrite T, setup_browser_dispatch.
    change (config (self started)) with cfg. rewrite C, W.
    rewrite (proj1 (logged_init_actions _ _)).
    rewrite (setup_wss_actions w pw started url W).
    unfold started, record_event; simpl.
    rewrite actions_app, <- app_assoc. reflexivity.
  - intros path C W I. rewrite setup_browser_dispatch.
    change (config (self started)) with cfg. rewrite C, W, I. reflexivity.
  - intros C W I. rewrite setup_browser_dispatch.
    change (config (self started)) with cfg. rewrite C, W, I. reflexivity.
  - apply get_playwright_browser_init; assumption.
Qed.

Lemma strategy_selection_is_exclusive_witness :
  actions (trace (snd (get_playwright_browser quiet_world
                         (fresh_state cdp_config)))) =
  [EvPlaywrightStart;
   EvConnectOverCDP "http://localhost:9223/json/version" None].
Proof.
  exact (proj1 (strategy_selection_is_exclusive quiet_world
                  (fresh_state cdp_config) 1 eq_refl eq_refl)
           "http://localhost:9223/json/version" eq_refl).
Defined.

(* ================================================================== *)
(** ** The probe of the debug endpoint and the poll loops *)

Ltac run_probe :=
  unfold probe_existing, chrome_poll_step, edge_poll_step, try_except, bind,
    http_get, connect_over_cdp, call, log, emit, ret, is_ConnectionError,
    probe, attach.

Lemma probe_existing_other_error w found on_refused s msg :
  requests_get w (trace s) version_url 2 = HttpOtherError msg ->
  probe_existing w found on_refused s =
  (Raise (mkExn RequestsOtherError msg), record_event probe s).
Proof. intro H. run_probe. rewrite H. reflexivity. Qed.

Lemma probe_existing_refused w found on_refused s msg :
  requests_get w (trace s) version_url 2 = HttpConnectionError msg ->
  probe_existing w found on_refused s =
  (on_refused ;;; ret None) (record_event probe s).
Proof. intro H. run_probe. rewrite H. reflexivity. Qed.

Lemma probe_existing_not_200 w found on_refused s n :
  requests_get w (trace s) version_url 2 = HttpStatus n ->
  n <> 200%Z ->
  probe_existing w found on_refused s = (Ok None, record_event probe s).
Proof.
  intros H N. run_probe. rewrite H. simpl.
  apply Z.eqb_neq in N. rewrite N. reflexivity.
Qed.

Lemma probe_existing_200 w found on_refused s :
  requests_get w (trace s) version_url 2 = HttpStatus 200 ->
  probe_existing w found on_refused s =
  let s1 := record_event (EvLog INFO found) (record_event probe s) in
  match pw_connect_over_cdp w (trace s1) debug_endpoint (Some 20000%Z) with
  | Done b => (Ok (Some b), record_event attach s1)
  | Failed msg => (Raise (mkExn PlaywrightError msg), record_event attach s1)
  end.
Proof.
  intro H. run_probe. rewrite H. simpl.
  destruct (pw_connect_over_cdp w _ debug_endpoint (Some 20000%Z));
    reflexivity.
Qed.

Lemma for_range_break n (body : M bool) s s1 :
  body s = (Ok true, s1) -> for_range (S n) body s = (Ok true, s1).
Proof. intro H. simpl. unfold bind. rewrite H. reflexivity. Qed.

Lemma for_range_continue n (body : M bool) s s1 :
  body s = (Ok false, s1) -> for_range (S n) body s = for_range n body s1.
Proof. intro H. simpl. unfold bind. rewrite H. reflexivity. Qed.

Lemma for_range_raise n (body : M bool) s e s1 :
  body s = (Raise e, s1) -> for_range (S n) body s = (Raise e, s1).
Proof. intro H. simpl. unfold bind. rewrite H. reflexivity. Qed.

(** What one iteration of the Chrome poll loop does, by probe outcome. *)
Lemma chrome_poll_step_spec w s :
  chrome_poll_step w s =
  match requests_get w (trace s) version_url 2 with
  | HttpStatus n =>
      if (n =? 200)%Z then (Ok true, record_event probe s)
      else (Ok false, record_event (EvAsyncioSleep 1) (record_event probe s))
  | HttpConnectionError _ =>
      (Ok false, record_event (EvAsyncioSleep 1) (record_event probe s))
  | HttpOtherError msg =>
      (Raise (mkExn RequestsOtherError msg), record_event probe s)
  end.
Proof.
  run_probe. destruct (requests_get w (trace s) version_url 2); simpl;
    try reflexivity.
  destruct (status_code =? 200)%Z; reflexivity.
Qed.

(** What one iteration of the Edge poll loop does, by probe outcome:
    it sleeps only after a refused connection. *)
Lemma edge_poll_step_spec w s :
  edge_poll_step w s =
  match requests_get w (trace s) version_url 2 with
  | HttpStatus n =>
      if (n =? 200)%Z
      then (Ok true, record_event (EvLog INFO "Edge started successfully")
                       (record_event probe s))
      else (Ok false, record_event probe s)
  | HttpConnectionError _ =>
      (Ok false, record_event (EvTimeSleep 1) (record_event probe s))
  | HttpOtherError msg =>
      (Raise (mkExn RequestsOtherError msg), record_event probe s)
  end.
Proof.
  run_probe. destruct (requests_get w (trace s) version_url 2); simpl;
    try reflexivity.
  destruct (status_code =? 200)%Z; reflexivity.
Qed.

Lemma setup_with_instance_unfold w pw s path :
  truthy (chrome_instance_path (config (self s))) = Some path ->
  _setup_browser_with_instance w pw s =
  (found <- probe_existing w "Reusing existing Chrome instance"
              (log DEBUG "No existing Chrome instance found, starting a new one") ;;
   match found with
   | Some browser => ret browser
   | None => start_new_chrome w path
   end) s.
Proof.
  intro H. unfold _setup_browser_with_instance, bind at 1, get_self.
  rewrite H. reflexivity.
Qed.

(** An exception of initialization reaches the caller as it is. *)
Lemma init_propagates w s pw e s1 :
  playwright_browser (self s) = PyNone ->
  async_playwright_start w (trace s) = Done pw ->
  _setup_browser w pw (record_event EvPlaywrightStart s) = (Raise e, s1) ->
  get_playwright_browser w s = (Raise e, s1).
Proof.
  intros P S H. rewrite (get_playwright_browser_init w s pw P S).
  unfold bind. rewrite H. reflexivity.
Qed.

Lemma setup_browser_local_raise w pw s path e s1 :
  truthy (cdp_url (config (self s))) = None ->
  truthy (wss_url (config (self s))) = None ->
  truthy (chrome_instance_path (config (self s))) = Some path ->
  _setup_browser_with_instance w pw s = (Raise e, s1) ->
  _setup_browser w pw s = (Raise e, record_event (init_failure_log e) s1).
Proof.
  intros C W I H. rewrite setup_browser_dispatch, C, W, I.
  apply logged_init_raise. exact H.
Qed.

Lemma start_new_chrome_unfold w path s :
  subprocess_Popen w (trace s) (chrome_cmd path (config (self s))) = Done tt ->
  start_new_chrome w path s =
  (for_range 10 (chrome_poll_step w) ;;;
   try_except
     (connect_over_cdp w debug_endpoint (Some 20000%Z))
     any_Exception
     (fun e =>
        log ERROR ("Failed to start a new Chrome instance.: " ++ exn_str e) ;;;
        raise chrome_debug_mode_error))
    (record_event (EvPopen (chrome_cmd path (config (self s)))) s).
Proof.
  intro H. unfold start_new_chrome, bind at 1, get_self.
  unfold bind at 1, call. rewrite H. reflexivity.
Qed.

Lemma start_new_edge_unfold w s edge s1 udd :
  _get_edge_path w s = (Ok edge, s1) ->
  user_data_dir (config (self s)) = Some udd ->
  subprocess_Popen w (trace s1 ++ [edge_starting_log]) (edge_cmd edge udd)
    = Done tt ->
  start_new_edge w s =
  (brk <- for_range max_wait (edge_poll_step w) ;;
   if brk then connect_over_cdp w debug_endpoint (Some 20000%Z)
   else raise edge_timeout)
    (record_event (EvPopen (edge_cmd edge udd))
       (record_event edge_starting_log s1)).
Proof.
  intros E U P. unfold start_new_edge, bind at 1, get_self.
  unfold bind at 1. rewrite E. unfold bind at 1, log, emit. rewrite U.
  unfold bind at 1, call. unfold record_event at 1. simpl.
  unfold edge_starting_log in P. rewrite P. reflexivity.
Qed.

(** The Edge-reuse branch of the standard launch. *)
Lemma setup_standard_edge_reuse w pw s udd :
  browser_type (config (self s)) = "msedge" ->
  use_existing_browser (config (self s)) = true ->
  truthy (user_data_dir (config (self s))) = Some udd ->
  _setup_standard_browser w pw s = _connect_to_existing_edge w pw s.
Proof.
  intros B U D. unfold _setup_standard_browser, bind at 1, get_self.
  rewrite B, U, D. reflexivity.
Qed.

Lemma connect_to_existing_edge_unfold w pw s :
  _connect_to_existing_edge w pw s =
  (found <- probe_existing w "Found existing Edge instance, connecting to it"
              (ret tt) ;;
   match found with
   | Some browser => ret browser
   | None => start_new_edge w
   end) s.
Proof. reflexivity. Qed.

Ltac first_probe H :=
  unfold bind at 1;
  first [ rewrite (probe_existing_other_error _ _ _ _ _ H)
        | rewrite (probe_existing_refused _ _ _ _ _ H)
        | rewrite (probe_existing_not_200 _ _ _ _ _ H) by assumption ].

(** C10. In both reuse paths, at the first probe and in the poll loop:
    a probe that raises something other than [requests.ConnectionError]
    (a read timeout, say) ends the method with that very exception,
    before anything is spawned and without another probe, and
    initialization hands it to the caller; a refused probe is caught
    (the first one leads to the spawn branch, one in a loop to the next
    iteration after a sleep); a first probe answered with a status other
    than 200 leads to the spawn branch as well and raises nothing. *)
Theorem probe_catches_only_connection_errors
    (w : World) (pw : handle) (s : State) :
  (forall msg,
     requests_get w (trace s) version_url 2 = HttpOtherError msg ->
     let e := mkExn RequestsOtherError msg in
     (forall path,
        truthy (chrome_instance_path (config (self s))) = Some path ->
        _setup_browser_with_instance w pw s = (Raise e, record_event probe s)) /\
     _connect_to_existing_edge w pw s = (Raise e, record_event probe s) /\
     (forall n, for_range (S n) (chrome_poll_step w) s =
                (Raise e, record_event probe s)) /\
     (forall n, for_range (S n) (edge_poll_step w) s =
                (Raise e, record_event probe s))) /\
  (forall msg,
     requests_get w (trace s) version_url 2 = HttpConnectionError msg ->
     (forall path,
        truthy (chrome_instance_path (config (self s))) = Some path ->
        _setup_browser_with_instance w pw s =
        start_new_chrome w path
          (record_event chrome_not_found_log (record_event probe s))) /\
     _connect_to_existing_edge w pw s =
       start_new_edge w (record_event probe s) /\
     (forall n, for_range (S n) (chrome_poll_step w) s =
                for_range n (chrome_poll_step w)
                  (record_event (EvAsyncioSleep 1) (record_event probe s))) /\
     (forall n, for_range (S n) (edge_poll_step w) s =
                for_range n (edge_poll_step w)
                  (record_event (EvTimeSleep 1) (record_event probe s)))) /\
  (forall n,
     requests_get w (trace s) version_url 2 = HttpStatus n ->
     n <> 200%Z ->
     (forall path,
        truthy (chrome_instance_path (config (self s))) = Some path ->
        _setup_browser_with_instance w pw s =
        start_new_chrome w path (record_event probe s)) /\
     _connect_to_existing_edge w pw s =
       start_new_edge w (record_event probe s)) /\
  (* an exception of a poll loop leaves the method as it is *)
  (forall path e s2,
     subprocess_Popen w (trace s) (chrome_cmd path (config (self s)))
       = Done tt ->
     for_range 10 (chrome_poll_step w)
       (record_event (EvPopen (chrome_cmd path (config (self s)))) s)
       = (Raise e, s2) ->
     start_new_chrome w path s = (Raise e, s2)) /\
  (forall edge s1 udd e s2,
     _get_edge_path w s = (Ok edge, s1) ->
     user_data_dir (config (self s)) = Some udd ->
     subprocess_Popen w (trace s1 ++ [edge_starting_log]) (edge_cmd edge udd)
       = Done tt ->
     for_range max_wait (edge_poll_step w)
       (record_event (EvPopen (edge_cmd edge udd))
          (record_event edge_starting_log s1)) = (Raise e, s2) ->
     start_new_edge w s = (Raise e, s2)) /\
  (* and so does initialization, after logging it *)
  (forall s0 e s1,
     playwright_browser (self s0) = PyNone ->
     async_playwright_start w (trace s0) = Done pw ->
     s = record_event EvPlaywrightStart s0 ->
     truthy (cdp_url (config (self s))) = None ->
     truthy (wss_url (config (self s))) = None ->
     (forall path,
        truthy (chrome_instance_path (config (self s))) = Some path ->
        _setup_browser_with_instance w pw s = (Raise e, s1) ->
        get_playwright_browser w s0 =
          (Raise e, record_event (init_failure_log e) s1)) /\
     (forall udd,
        truthy (chrome_instance_path (config (self s))) = None ->
        browser_type (config (self s)) = "msedge" ->
        use_existing_browser (config (self s)) = true ->
        truthy (user_data_dir (config (self s))) = Some udd ->
        _connect_to_existing_edge w pw s = (Raise e, s1) ->
        get_playwright_browser w s0 =
          (Raise e, record_event (init_failure_log e) s1))).
Proof.
  split; [|split; [|split; [|split; [|split]]]].
  - intros msg H e. repeat split.
    + intros path I. rewrite (setup_with_instance_unfold w pw s path I).
      first_probe H. reflexivity.
    + rewrite connect_to_existing_edge_unfold. first_probe H. reflexivity.
    + intro n. apply for_range_raise.
      rewrite chrome_poll_step_spec, H. reflexivity.
    + intro n. apply for_range_raise.
      rewrite edge_poll_step_spec, H. reflexivity.
  - intros msg H. repeat split.
    + intros path I. rewrite (setup_with_instance_unfold w pw s path I).
      first_probe H. reflexivity.
    + rewrite connect_to_existing_edge_unfold. first_probe H. reflexivity.
    + intro n. apply for_range_continue.
      rewrite chrome_poll_step_spec, H. reflexivity.
    + intro n. apply for_range_continue.
      rewrite edge_poll_step_spec, H. reflexivity.
  - intros n H N. split.
    + intros path I. rewrite (setup_with_instance_unfold w pw s path I).
      first_probe H. reflexivity.
    + rewrite connect_to_existing_edge_unfold. first_probe H. reflexivity.
  - intros path e s2 P L. rewrite (start_new_chrome_unfold w path s P).
    unfold bind at 1. rewrite L. reflexivity.
  - intros edge s1 udd e s2 E U P L.
    rewrite (start_new_edge_unfold w s edge s1 udd E U P).
    unfold bind at 1. rewrite L. reflexivity.
  - intros s0 e s1 P S -> C W. split.
    + intros path I H. apply (init_propagates w s0 pw); try assumption.
      apply (setup_browser_local_raise w pw _ path); assumption.
    + intros udd I B U D H. apply (init_propagates w s0 pw); try assumption.
      rewrite setup_browser_dispatch, C, W, I.
      apply logged_init_raise.
      rewrite (setup_standard_edge_reuse w pw _ udd B U D). exact H.
Qed.

Lemma probe_catches_only_connection_errors_witness :
  _setup_browser_with_instance read_timeout_world 1 (fresh_state chrome_config)
  = (Raise (mkExn RequestsOtherError "Read timed out."),
     record_event probe (fresh_state chrome_config)).
Proof.
  exact (proj1 (proj1 (probe_catches_only_connection_errors
                         read_timeout_world 1 (fresh_state chrome_config))
                  "Read timed out." eq_refl)
           "/usr/bin/google-chrome" eq_refl).
Defined.

(* ================================================================== *)
(** ** The local-executable path: [_setup_browser_with_instance] *)


Lemma final_attach_fails w s msg :
  pw_connect_over_cdp w (trace s) debug_endpoint (Some 20000%Z) = Failed msg ->
  try_except
    (connect_over_cdp w debug_endpoint (Some 20000%Z))
    any_Exception
    (fun e =>
       log ERROR ("Failed to start a new Chrome instance.: " ++ exn_str e) ;;;
       raise chrome_debug_mode_error) s =
  (Raise chrome_debug_mode_error,
   record_event
     (EvLog ERROR ("Failed to start a new Chrome instance.: " ++ msg))
     (record_event attach s)).
Proof.
  intro H. unfold try_except, connect_over_cdp, call. rewrite H. reflexivity.
Qed.






(* ================================================================== *)
(** ** The Edge-reuse path: [_connect_to_existing_edge] *)

(** Each iteration of the Edge poll loop probes once. *)
Lemma edge_poll_step_one_probe w s :
  count_probes (trace (snd (edge_poll_step w s))) = S (count_probes (trace s)).
Proof.
  rewrite edge_poll_step_spec. unfold count_probes, record_event, probe.
  destruct (requests_get w (trace s) version_url 2) as [n | m | m];
    [destruct (n =? 200)%Z| |]; simpl;
    rewrite ?filter_app, ?length_app; simpl; lia.
Qed.

(** A poll loop of [n] iterations probes at most [n] times. *)
Lemma edge_poll_at_most w n s :
  count_probes (trace (snd (for_range n (edge_poll_step w) s)))
  <= count_probes (trace s) + n.
Proof.
  revert s. induction n as [|n IH]; intro s; [simpl; lia|].
  pose proof (edge_poll_step_one_probe w s) as O.
  destruct (edge_poll_step w s) as [[[] | e] s1] eqn:St; simpl in O.
  - rewrite (for_range_break _ _ _ _ St). simpl. lia.
  - rewrite (for_range_continue _ _ _ _ St). specialize (IH s1). lia.
  - rewrite (for_range_raise _ _ _ _ _ St). simpl. lia.
Qed.

(** While the connection is refused, a second of sleep follows every
    probe. *)
Lemma edge_poll_refused w n s :
  (forall h, exists msg,
      requests_get w h version_url 2 = HttpConnectionError msg) ->
  for_range n (edge_poll_step w) s =
  (Ok false,
   {| self := self s;
      trace := trace s ++ concat (repeat [probe; EvTimeSleep 1] n) |}).
Proof.
  intro R. revert s. induction n as [|n IH]; intro s.
  - simpl. rewrite app_nil_r. destruct s; reflexivity.
  - assert (St : edge_poll_step w s =
                 (Ok false, record_event (EvTimeSleep 1)
                              (record_event probe s))).
    { rewrite edge_poll_step_spec. destruct (R (trace s)) as [msg ->].
      reflexivity. }
    rewrite (for_range_continue _ _ _ _ St), IH.
    unfold record_event; simpl. rewrite <- !app_assoc. reflexivity.
Qed.

(** A poll budget used up without a 200 answer ends in the timeout
    error. *)
Lemma edge_poll_exhausted_times_out w s edge s1 udd s2 :
  _get_edge_path w s = (Ok edge, s1) ->
  user_data_dir (config (self s)) = Some udd ->
  subprocess_Popen w (trace s1 ++ [edge_starting_log]) (edge_cmd edge udd)
    = Done tt ->
  for_range max_wait (edge_poll_step w)
    (record_event (EvPopen (edge_cmd edge udd))
       (record_event edge_starting_log s1)) = (Ok false, s2) ->
  start_new_edge w s = (Raise edge_timeout, s2).
Proof.
  intros E U P L. rewrite (start_new_edge_unfold w s edge s1 udd E U P).
  unfold bind. rewrite L. reflexivity.
Qed.

(** C8 (code defect). The Edge poll loop sleeps only in its handler of a
    refused connection.  With a debug endpoint that answers every probe
    with status 503 the thirty probes after the spawn follow one
    another with no sleep at all, and the method ends in the timeout
    error. *)
Theorem edge_poll_busy_waits_on_status :
  actions (trace (snd (_connect_to_existing_edge busy_endpoint_world 1
                         (fresh_state edge_reuse_config)))) =
    probe :: EvExists "/usr/bin/microsoft-edge"
      :: EvPopen (edge_cmd "/usr/bin/microsoft-edge"
                    "/home/u/.config/microsoft-edge")
      :: repeat probe 30 /\
  filter is_sleep
    (trace (snd (_connect_to_existing_edge busy_endpoint_world 1
                   (fresh_state edge_reuse_config)))) = [] /\
  fst (_connect_to_existing_edge busy_endpoint_world 1
         (fresh_state edge_reuse_config)) = Raise edge_timeout.
Proof. repeat split; vm_compute; reflexivity. Qed.

(* ================================================================== *)
(** ** Profile copy: [_copy_cookies_from_profile] *)

Lemma keeps_ret {A} (a : A) : keeps_self (ret a).
Proof. intro s; reflexivity. Qed.

Lemma keeps_raise {A} (e : exn) : keeps_self (@raise A e).
Proof. intro s; reflexivity. Qed.

Lemma keeps_bind {A B} (m : M A) (k : A -> M B) :
  keeps_self m -> (forall a, keeps_self (k a)) -> keeps_self (bind m k).
Proof.
  intros Hm Hk s. unfold bind. specialize (Hm s).
  destruct (m s) as [[a | e] s1]; simpl in *.
  - rewrite Hk. exact Hm.
  - exact Hm.
Qed.

Lemma keeps_try_except {A} (m : M A) c (h : exn -> M A) :
  keeps_self m -> (forall e, keeps_self (h e)) ->
  keeps_self (try_except m c h).
Proof.
  intros Hm Hh s. unfold try_except. specialize (Hm s).
  destruct (m s) as [[a | e] s1]; simpl in *.
  - exact Hm.
  - destruct (c e); [|exact Hm]. rewrite Hh. exact Hm.
Qed.

Lemma keeps_emit ev : keeps_self (emit ev).
Proof. intro s; reflexivity. Qed.

Lemma keeps_log l m : keeps_self (log l m).
Proof. intro s; reflexivity. Qed.

Lemma keeps_call {A} ev (o : history -> outcome A) cls :
  keeps_self (call ev o cls).
Proof. intro s; unfold call; destruct (o (trace s)); reflexivity. Qed.

Lemma keeps_query {A} ev (o : history -> A) : keeps_self (query ev o).
Proof. intro s; reflexivity. Qed.

Lemma keeps_for_each {A} (xs : list A) (body : A -> M unit) :
  (forall x, keeps_self (body x)) -> keeps_self (for_each xs body).
Proof.
  intro H. induction xs as [|x xs IH]; simpl.
  - apply keeps_ret.
  - apply keeps_bind; [apply H | intros _; exact IH].
Qed.

Create HintDb keeps.
#[local] Hint Resolve keeps_ret keeps_raise keeps_emit keeps_log keeps_call
  keeps_query : keeps.

Ltac keeps :=
  repeat first
    [ solve [auto with keeps]
    | apply keeps_for_each; intros ?
    | apply keeps_bind; [| intros ?; cbv beta ]
    | apply keeps_try_except; [| intros ?; cbv beta ]
    | match goal with
      | |- keeps_self (match ?x with _ => _ end) => destruct x
      | |- keeps_self (if ?x then _ else _) => destruct x
      | |- keeps_self (let _ := _ in _) => cbv zeta
      end ].

Lemma keeps_first_existing w paths : keeps_self (first_existing w paths).
Proof. induction paths as [|p ps IH]; simpl; keeps. Qed.

#[local] Hint Resolve keeps_first_existing : keeps.

Lemma keeps_get_edge_path w : keeps_self (_get_edge_path w).
Proof. unfold _get_edge_path. keeps. Qed.

Lemma keeps_copy_cookie_file w src tgt f :
  keeps_self (copy_cookie_file w src tgt f).
Proof. unfold copy_cookie_file. keeps. Qed.

Lemma keeps_copy_local_storage w src tgt f :
  keeps_self (copy_local_storage w src tgt f).
Proof. unfold copy_local_storage. keeps. Qed.

#[local] Hint Resolve keeps_copy_cookie_file keeps_copy_local_storage : keeps.

Lemma keeps_copy_cookies w src tgt :
  keeps_self (_copy_cookies_from_profile w src tgt).
Proof. unfold _copy_cookies_from_profile. keeps. Qed.

(** A cookie file that is missing is skipped. *)
Lemma copy_cookie_file_missing w src tgt f s :
  os_path_exists w (trace s) f = false ->
  copy_cookie_file w src tgt f s = (Ok tt, record_event (EvExists f) s).
Proof.
  intro H. unfold copy_cookie_file, bind, query. rewrite H. reflexivity.
Qed.

(** A local-storage directory that is missing is skipped. *)
Lemma copy_local_storage_missing w src tgt f s :
  os_path_exists w (trace s) f = false ->
  copy_local_storage w src tgt f s = (Ok tt, record_event (EvExists f) s).
Proof.
  intro H. unfold copy_local_storage, bind, query. rewrite H. reflexivity.
Qed.

(** The local-storage step never raises: its directory creation and its
    copy are both inside the guard. *)
Lemma copy_local_storage_ok w src tgt f s :
  fst (copy_local_storage w src tgt f s) = Ok tt.
Proof.
  unfold copy_local_storage, bind, query, try_except, call, log, emit, ret,
    any_Exception.
  destruct (os_path_exists w (trace s) f); simpl; [|reflexivity].
  destruct (os_path_isdir w _ f); simpl; [|reflexivity].
  destruct (os_makedirs w _ _); simpl; [|reflexivity].
  destruct (shutil_copytree w _ _ _); reflexivity.
Qed.

(** The cookie step raises only what its unguarded directory creation
    raises; a failure of [shutil.copy2] is caught and logged. *)
Lemma copy_cookie_file_ok w src tgt f s :
  (forall h p, os_makedirs w h p = Done tt) ->
  fst (copy_cookie_file w src tgt f s) = Ok tt.
Proof.
  intro Mk.
  unfold copy_cookie_file, bind, query, try_except, call, log, emit, ret,
    any_Exception.
  destruct (os_path_exists w (trace s) f); simpl; [|reflexivity].
  rewrite Mk. simpl.
  destruct (shutil_copy2 w _ _ _); reflexivity.
Qed.

Lemma for_each_ok {A} (xs : list A) (body : A -> M unit) s :
  (forall x s1, fst (body x s1) = Ok tt) ->
  fst (for_each xs body s) = Ok tt.
Proof.
  intro H. revert s. induction xs as [|x xs IH]; intro s; [reflexivity|].
  simpl. unfold bind. specialize (H x s).
  destruct (body x s) as [[[] | e] s1]; simpl in H; [apply IH | discriminate].
Qed.

(** X14. Whatever is missing in the source profile and whichever copy
    fails, the profile copy returns normally as long as the directory
    creations outside its guards succeed. *)
Lemma copy_cookies_ok_when_dirs_ok w src tgt s :
  (forall h p, os_makedirs w h p = Done tt) ->
  fst (_copy_cookies_from_profile w src tgt s) = Ok tt.
Proof.
  intro Mk. unfold _copy_cookies_from_profile, bind at 1, call.
  rewrite Mk. cbv beta iota. unfold bind.
  match goal with
  | |- context [for_each (cookies_files src) ?b ?s0] =>
      pose proof (for_each_ok (cookies_files src) b s0
                    (fun x s1 => copy_cookie_file_ok w src tgt x s1 Mk)) as C;
      destruct (for_each (cookies_files src) b s0) as [[[] | e] s1];
      simpl in C; [| discriminate]
  end.
  apply for_each_ok. intros; apply copy_local_storage_ok.
Qed.

(** X15. With all five known paths missing, the profile copy creates
    the target directory and then only looks for the five paths, cookie
    files first, in the order of the lists. *)
Lemma copy_cookies_all_missing w src tgt s :
  os_makedirs w (trace s) tgt = Done tt ->
  (forall h p, In p (cookies_files src ++ local_storage_paths src) ->
               os_path_exists w h p = false) ->
  _copy_cookies_from_profile w src tgt s =
  (Ok tt,
   {| self := self s;
      trace := trace s ++ EvMakedirs tgt
                 :: map EvExists (cookies_files src ++ local_storage_paths src) |}).
Proof.
  intros Mk Miss. unfold _copy_cookies_from_profile, bind at 1, call.
  rewrite Mk. cbv beta iota.
  unfold cookies_files, local_storage_paths in *.
  cbn [for_each app map]. unfold bind, ret.
  repeat (first [ rewrite copy_cookie_file_missing
                    by (apply Miss; simpl; tauto)
                | rewrite copy_local_storage_missing
                    by (apply Miss; simpl; tauto) ];
          cbv beta iota).
  unfold record_event. cbn [self trace].
  rewrite <- !app_assoc. reflexivity.
Qed.

(** C9 (code defect). The source profile holds [Default/Cookies] and
    the directory [Default] cannot be created under the target: the
    [os.makedirs] of the cookie loop stands outside the [try], unlike
    the one of the local-storage loop, and its error leaves
    [_copy_cookies_from_profile]. *)
Theorem copy_cookies_raises_on_target_dir :
  _copy_cookies_from_profile default_not_creatable "/src" "/tmp/edge_profile_x"
    (fresh_state default_config) =
  (Raise (mkExn OSError
            "[Errno 17] File exists: '/tmp/edge_profile_x/Default'"),
   {| self := __init__ default_config;
      trace := [EvMakedirs "/tmp/edge_profile_x";
                EvExists "/src/Default/Cookies";
                EvMakedirs "/tmp/edge_profile_x/Default"] |}).
Proof. vm_compute. reflexivity. Qed.

(* ================================================================== *)
(** ** Edge on a temporary profile: [_setup_standard_browser] *)

Lemma get_storage_state_path_spec w dir s :
  _get_storage_state_path w dir s =
  (Ok (storage_state_of (glob_glob w (trace s) (cookies_pattern dir))),
   record_event (EvGlob (cookies_pattern dir)) s).
Proof.
  unfold _get_storage_state_path, bind, query, storage_state_of,
    cookies_pattern.
  destruct (glob_glob w (trace s) _); reflexivity.
Qed.

Lemma setup_standard_edge_profile w pw s udd :
  browser_type (config (self s)) = "msedge" ->
  use_existing_browser (config (self s)) = false ->
  truthy (user_data_dir (config (self s))) = Some udd ->
  _setup_standard_browser w pw s =
  (edge_path <- _get_edge_path w ;; launch_edge_with_profile w edge_path udd) s.
Proof.
  intros B U D. unfold _setup_standard_browser, bind at 1, get_self.
  rewrite B, U, D. reflexivity.
Qed.

Lemma launch_spec w launcher exe args s :
  launch w launcher exe args s =
  let ev := EvLaunch launcher (headless (config (self s))) exe args
              (proxy (config (self s))) in
  match pw_launch w (trace s) launcher (headless (config (self s))) exe args
          (proxy (config (self s))) with
  | Done b => (Ok b, record_event ev s)
  | Failed msg => (Raise (mkExn PlaywrightError msg), record_event ev s)
  end.
Proof. reflexivity. Qed.

(** C5 (amended). In the standard launch for the msedge kind with a
    user-data directory set and use-existing-browser off, once the Edge
    executable is found: a temporary profile directory is created and
    kept in [temp_dir], cookies and local storage are copied into it,
    and Edge is launched with the standard flags, the extra arguments and
    the two flags that disable private browsing, in that order: the
    launch gets neither the disable-security flags nor a user-data-dir
    argument.  A context is then opened on the storage-state path found
    under the temporary profile ([None] when no Cookies file is there)
    and kept in [browser_context]. *)
Theorem edge_profile_launch
    (w : World) (pw : handle) (s s1 s3 : State) (udd edge tmp : string) :
  let cfg := config (self s) in
  let launching :=
    EvLog INFO ("Launching Microsoft Edge with user data directory: " ++ udd)%string in
  let created :=
    EvLog INFO ("Created temporary profile at: " ++ tmp)%string in
  let launch_ev :=
    EvLaunch "chromium" (headless cfg) (Some edge) (edge_profile_args cfg)
      (proxy cfg) in
  let h3 := trace s3 ++ [created] in
  let found := glob_glob w (h3 ++ [launch_ev]) (cookies_pattern tmp) in
  let opened b := EvNewContext b (storage_state_of found) in
  browser_type cfg = "msedge" ->
  use_existing_browser cfg = false ->
  truthy (user_data_dir cfg) = Some udd ->
  _get_edge_path w s = (Ok edge, s1) ->
  tempfile_TemporaryDirectory w (trace s1 ++ [launching]) edge_profile_prefix
    = Done tmp ->
  _copy_cookies_from_profile w udd tmp
    {| self := with_temp_dir (Obj tmp) (self s);
       trace := trace s1 ++ [launching; EvTemporaryDirectory edge_profile_prefix] |}
    = (Ok tt, s3) ->
  self s3 = with_temp_dir (Obj tmp) (self s) /\
  _setup_standard_browser w pw s =
  match pw_launch w h3 "chromium" (headless cfg) (Some edge)
          (edge_profile_args cfg) (proxy cfg) with
  | Failed msg =>
      (Raise (mkExn PlaywrightError msg),
       {| self := self s3; trace := h3 ++ [launch_ev] |})
  | Done b =>
      match pw_new_context w (h3 ++ [launch_ev; EvGlob (cookies_pattern tmp)])
              b (storage_state_of found) with
      | Failed msg =>
          (Raise (mkExn PlaywrightError msg),
           {| self := self s3;
              trace := h3 ++ [launch_ev; EvGlob (cookies_pattern tmp);
                              opened b] |})
      | Done ctx =>
          (Ok b,
           {| self := with_browser_context (Obj ctx) (self s3);
              trace := h3 ++ [launch_ev; EvGlob (cookies_pattern tmp);
                              opened b] |})
      end
  end.
Proof.
  intros cfg launching created launch_ev h3 found opened B U D E T C.
  assert (S1 : self s1 = self s).
  { rewrite <- (keeps_get_edge_path w s), E. reflexivity. }
  assert (S3 : self s3 = with_temp_dir (Obj tmp) (self s)).
  { pose proof (keeps_copy_cookies w udd tmp
                  {| self := with_temp_dir (Obj tmp) (self s);
                     trace := trace s1 ++
                       [launching; EvTemporaryDirectory edge_profile_prefix] |})
      as K.
    rewrite C in K. exact K. }
  split; [exact S3|].
  rewrite (setup_standard_edge_profile w pw s udd B U D).
  unfold bind at 1. rewrite E.
  destruct s1 as [b1 tr1]. cbn [self trace] in *. subst b1.
  destruct s3 as [b3 tr3]. cbn [self trace] in *. subst b3.
  subst cfg launching created launch_ev h3 found opened.
  unfold launch_edge_with_profile, edge_profile_args.
  unfold bind at 1, get_self. unfold bind at 1, log, emit.
  unfold bind at 1, call, record_event. cbn [self trace].
  rewrite T.
  unfold bind at 1, set_temp_dir, bind at 1, get_self, set_self.
  cbn [self trace]. unfold bind at 1.
  match goal with
  | |- context [_copy_cookies_from_profile w udd tmp ?st] =>
      change st with
        {| self := with_temp_dir (Obj tmp) (self s);
           trace := tr1 ++
             [EvLog INFO
                ("Launching Microsoft Edge with user data directory: "
                   ++ udd)%string;
              EvTemporaryDirectory edge_profile_prefix] |}
      || (replace st with
            {| self := with_temp_dir (Obj tmp) (self s);
               trace := tr1 ++
                 [EvLog INFO
                    ("Launching Microsoft Edge with user data directory: "
                       ++ udd)%string;
                  EvTemporaryDirectory edge_profile_prefix] |}
           by (rewrite <- app_assoc; reflexivity))
  end.
  rewrite C.
  unfold bind at 1. unfold bind at 1. rewrite launch_spec.
  cbn [self trace config with_temp_dir]. cbv zeta.
  destruct (pw_launch w _ "chromium" _ (Some edge) _ _) as [b | msg];
    [| reflexivity].
  unfold bind at 1. rewrite get_storage_state_path_spec.
  unfold record_event. cbn [self trace].
  unfold bind at 1.
  rewrite <- !app_assoc. cbn [app].
  destruct (pw_new_context w _ b _) as [ctx | msg];
    unfold bind, set_browser_context, get_self, set_self, ret;
    cbn [self trace]; rewrite <- ?app_assoc; reflexivity.
Qed.

Lemma edge_profile_launch_witness :
  _setup_standard_browser edge_world 1 (fresh_state edge_profile_config) =
  (Ok 2,
   {| self := with_browser_context (Obj 3) (self edge_profile_copied);
      trace :=
        (trace edge_profile_copied
           ++ [EvLog INFO "Created temporary profile at: /tmp/edge_profile_x"])
        ++ [EvLaunch "chromium" false (Some "/usr/bin/microsoft-edge")
              (edge_profile_args edge_profile_config) None;
            EvGlob "/tmp/edge_profile_x/**/Cookies";
            EvNewContext 2 None] |}).
Proof.
  exact (proj2 (edge_profile_launch edge_world 1
                  (fresh_state edge_profile_config)
                  edge_found edge_profile_copied
                  "/home/u/.config/microsoft-edge" "/usr/bin/microsoft-edge"
                  "/tmp/edge_profile_x"
                  eq_refl eq_refl eq_refl eq_refl eq_refl eq_refl)).
Defined.

(** C5, as stated, fails: disable-security is on and a temporary
    profile was created, yet the one launch that is made names no
    user-data directory and carries none of the disable-security
    flags. *)
Lemma edge_profile_launch_ignores_profile :
  disable_security edge_profile_config = true /\
  temp_dir (self (snd (get_playwright_browser edge_world
                         (fresh_state edge_profile_config))))
    = Obj "/tmp/edge_profile_x" /\
  launched_args (trace (snd (get_playwright_browser edge_world
                               (fresh_state edge_profile_config))))
    = [edge_profile_args edge_profile_config] /\
  names_user_data_dir (edge_profile_args edge_profile_config) = false /\
  has_flag_of (disable_security_args (__init__ edge_profile_config))
    (edge_profile_args edge_profile_config) = false.
Proof. repeat split; vm_compute; reflexivity. Qed.

(* ================================================================== *)
(** ** Further properties: what initialization writes *)

Lemma setup_frame_refl s : setup_frame s s.
Proof. repeat split. Qed.

Lemma setup_frame_trans s1 s2 s3 :
  setup_frame s1 s2 -> setup_frame s2 s3 -> setup_frame s1 s3.
Proof. intros (A & B & C & D) (E & F & G & H). repeat split; congruence. Qed.

Lemma wpho_of_keeps {A} (m : M A) :
  keeps_self m -> writes_profile_handles_only m.
Proof. intros K s. unfold setup_frame. rewrite K. repeat split. Qed.

Lemma wpho_ret {A} (a : A) : writes_profile_handles_only (ret a).
Proof. intro s; apply setup_frame_refl. Qed.

Lemma wpho_raise {A} (e : exn) : writes_profile_handles_only (@raise A e).
Proof. intro s; apply setup_frame_refl. Qed.

Lemma wpho_bind {A B} (m : M A) (k : A -> M B) :
  writes_profile_handles_only m ->
  (forall a, writes_profile_handles_only (k a)) ->
  writes_profile_handles_only (bind m k).
Proof.
  intros Hm Hk s. unfold bind. specialize (Hm s).
  destruct (m s) as [[a | e] s1]; simpl in *.
  - eapply setup_frame_trans; [exact Hm | apply Hk].
  - exact Hm.
Qed.

Lemma wpho_try_except {A} (m : M A) c (h : exn -> M A) :
  writes_profile_handles_only m ->
  (forall e, writes_profile_handles_only (h e)) ->
  writes_profile_handles_only (try_except m c h).
Proof.
  intros Hm Hh s. unfold try_except. specialize (Hm s).
  destruct (m s) as [[a | e] s1]; simpl in *.
  - exact Hm.
  - destruct (c e); [|exact Hm].
    eapply setup_frame_trans; [exact Hm | apply Hh].
Qed.

Lemma wpho_for_range n (body : M bool) :
  writes_profile_handles_only body ->
  writes_profile_handles_only (for_range n body).
Proof.
  intro H. induction n as [|n IH]; simpl.
  - apply wpho_ret.
  - apply wpho_bind; [exact H|]. intros []; [apply wpho_ret | exact IH].
Qed.

Lemma wpho_get_self : writes_profile_handles_only get_self.
Proof. intro s; apply setup_frame_refl. Qed.

Lemma wpho_emit ev : writes_profile_handles_only (emit ev).
Proof. intro s; repeat split. Qed.

Lemma wpho_log l m : writes_profile_handles_only (log l m).
Proof. apply wpho_emit. Qed.

Lemma wpho_call {A} ev (o : history -> outcome A) cls :
  writes_profile_handles_only (call ev o cls).
Proof. apply wpho_of_keeps, keeps_call. Qed.

Lemma wpho_http_get w url t : writes_profile_handles_only (http_get w url t).
Proof.
  intro s. unfold http_get. destruct (requests_get w (trace s) url t);
    repeat split.
Qed.

Lemma wpho_set_temp_dir v : writes_profile_handles_only (set_temp_dir v).
Proof. intro s; repeat split. Qed.

Lemma wpho_set_browser_context v :
  writes_profile_handles_only (set_browser_context v).
Proof. intro s; repeat split. Qed.

Lemma wpho_get_edge_path w : writes_profile_handles_only (_get_edge_path w).
Proof. apply wpho_of_keeps, keeps_get_edge_path. Qed.

Lemma wpho_copy_cookies w src tgt :
  writes_profile_handles_only (_copy_cookies_from_profile w src tgt).
Proof. apply wpho_of_keeps, keeps_copy_cookies. Qed.

Lemma wpho_get_storage_state_path w d :
  writes_profile_handles_only (_get_storage_state_path w d).
Proof.
  intro s. rewrite get_storage_state_path_spec. repeat split.
Qed.

Create HintDb wpho.
#[local] Hint Resolve wpho_ret wpho_raise wpho_get_self wpho_emit wpho_log
  wpho_call wpho_http_get wpho_set_temp_dir wpho_set_browser_context
  wpho_get_edge_path wpho_copy_cookies wpho_get_storage_state_path : wpho.

Ltac wpho :=
  repeat first
    [ solve [auto with wpho]
    | apply wpho_for_range
    | apply wpho_bind; [| intros ?; cbv beta ]
    | apply wpho_try_except; [| intros ?; cbv beta ]
    | match goal with
      | |- writes_profile_handles_only (match ?x with _ => _ end) =>
          destruct x
      | |- writes_profile_handles_only (if ?x then _ else _) => destruct x
      | |- writes_profile_handles_only (let _ := _ in _) => cbv zeta
      end ].

Lemma wpho_connect_over_cdp w url t :
  writes_profile_handles_only (connect_over_cdp w url t).
Proof. unfold connect_over_cdp. wpho. Qed.

Lemma wpho_launch w l exe args :
  writes_profile_handles_only (launch w l exe args).
Proof. unfold launch. wpho. Qed.

#[local] Hint Resolve wpho_connect_over_cdp wpho_launch : wpho.

Lemma wpho_probe_existing w found on_refused :
  writes_profile_handles_only on_refused ->
  writes_profile_handles_only (probe_existing w found on_refused).
Proof. intro H. unfold probe_existing. wpho. Qed.

Lemma wpho_setup_cdp w pw : writes_profile_handles_only (_setup_cdp w pw).
Proof. unfold _setup_cdp. wpho. Qed.

Lemma wpho_setup_wss w pw : writes_profile_handles_only (_setup_wss w pw).
Proof. unfold _setup_wss. wpho. Qed.

Lemma wpho_chrome_poll_step w : writes_profile_handles_only (chrome_poll_step w).
Proof. unfold chrome_poll_step. wpho. Qed.

Lemma wpho_edge_poll_step w : writes_profile_handles_only (edge_poll_step w).
Proof. unfold edge_poll_step. wpho. Qed.

#[local] Hint Resolve wpho_chrome_poll_step wpho_edge_poll_step : wpho.

Lemma wpho_start_new_chrome w path :
  writes_profile_handles_only (start_new_chrome w path).
Proof. unfold start_new_chrome. wpho. Qed.

Lemma wpho_start_new_edge w : writes_profile_handles_only (start_new_edge w).
Proof. unfold start_new_edge. wpho. Qed.

#[local] Hint Resolve wpho_start_new_chrome wpho_start_new_edge : wpho.

Lemma wpho_setup_with_instance w pw :
  writes_profile_handles_only (_setup_browser_with_instance w pw).
Proof.
  unfold _setup_browser_with_instance. wpho.
Qed.

Lemma wpho_connect_to_existing_edge w pw :
  writes_profile_handles_only (_connect_to_existing_edge w pw).
Proof.
  unfold _connect_to_existing_edge. wpho.
Qed.

Lemma wpho_launch_edge_with_profile w edge udd :
  writes_profile_handles_only (launch_edge_with_profile w edge udd).
Proof. unfold launch_edge_with_profile. wpho. Qed.

Lemma wpho_launch_edge_disposable w edge :
  writes_profile_handles_only (launch_edge_disposable w edge).
Proof. unfold launch_edge_disposable. wpho. Qed.

#[local] Hint Resolve wpho_setup_cdp wpho_setup_wss wpho_setup_with_instance
  wpho_connect_to_existing_edge wpho_launch_edge_with_profile
  wpho_launch_edge_disposable : wpho.

Lemma wpho_setup_standard_browser w pw :
  writes_profile_handles_only (_setup_standard_browser w pw).
Proof. unfold _setup_standard_browser. wpho. Qed.

#[local] Hint Resolve wpho_setup_standard_browser : wpho.

Lemma wpho_setup_browser w pw :
  writes_profile_handles_only (_setup_browser w pw).
Proof. unfold _setup_browser, logged_init. wpho. Qed.

Lemma preserves_setup_browser w pw : preserves_config (_setup_browser w pw).
Proof.
  intro s. destruct (wpho_setup_browser w pw s) as (A & B & _).
  split; assumption.
Qed.

#[local] Hint Resolve preserves_setup_browser : frame.

Lemma preserves_get_playwright_browser w :
  preserves_config (get_playwright_browser w).
Proof. unfold get_playwright_browser, _init. frame. Qed.

(** The teardown steps that [close] attempts are an initial part of the
    steps the manager calls for, in their order. *)
Lemma close_steps_prefix w s :
  exists d rest,
    trace (snd (close w s)) = trace s ++ d /\
    expected_steps (self s) = teardown_actions d ++ rest.
Proof.
  destruct s as [[[hl ds ex cip wss cdp bt udd ueb px keep] pw pb bc td dsa] tr].
  destruct keep, bc as [| |c], pb as [| |b], pw as [| |p], td as [| |d];
    cbv [close try_finally close_body try_except bind get_self negb
         close_context close_playwright_browser stop_playwright
         cleanup_temp_dir reset_handles drop_temp_dir log_close_failure
         log emit call getattr_ set_browser_context set_playwright_browser set_playwright
         set_temp_dir set_self ret any_Exception record_event
         self trace config _force_keep_browser_alive playwright
         playwright_browser browser_context temp_dir disable_security_args
         fst snd];
    repeat (match goal with
            | |- context [pw_context_close ?a ?h ?x] =>
                destruct (pw_context_close a h x)
            | |- context [pw_browser_close ?a ?h ?x] =>
                destruct (pw_browser_close a h x)
            | |- context [pw_stop ?a ?h ?x] => destruct (pw_stop a h x)
            | |- context [tempdir_cleanup ?a ?h ?x] =>
                destruct (tempdir_cleanup a h x)
            end; cbv beta iota);
    rewrite <- ?app_assoc; do 2 eexists; (split; [reflexivity|]);
    cbv [expected_steps browser_context playwright_browser playwright
         temp_dir]; reflexivity.
Qed.

(** X1. A browser handle that [get_playwright_browser] returned is kept
    in [playwright_browser]: the next call returns the same handle and
    does nothing, neither to the outside nor to the manager. *)
Theorem get_playwright_browser_caches (w : World) (s s1 : State) (b : handle) :
  get_playwright_browser w s = (Ok b, s1) ->
  playwright_browser (self s1) = Obj b /\
  get_playwright_browser w s1 = (Ok b, s1).
Proof.
  intro H.
  assert (P1 : playwright_browser (self s1) = Obj b).
  { destruct (playwright_browser (self s)) as [| |b0] eqn:P.
    - unfold get_playwright_browser, bind, getattr_ in H. rewrite P in H.
      discriminate H.
    - destruct (async_playwright_start w (trace s)) as [pw | msg] eqn:S.
      + rewrite (get_playwright_browser_init w s pw P S) in H.
        unfold bind in H.
        destruct (_setup_browser w pw (record_event EvPlaywrightStart s))
          as [[b1 | e] s2]; [| discriminate H].
        inversion H; subst. reflexivity.
      + unfold get_playwright_browser, bind, getattr_, _init, call in H.
        rewrite P in H. unfold bind in H. rewrite S in H. discriminate H.
    - unfold get_playwright_browser, bind, getattr_ in H. rewrite P in H.
      inversion H; subst. exact P. }
  split; [exact P1|].
  unfold get_playwright_browser, bind, getattr_. rewrite P1. reflexivity.
Qed.

Lemma get_playwright_browser_caches_witness :
  playwright_browser
    (self (snd (get_playwright_browser quiet_world (fresh_state cdp_config))))
  = Obj 2.
Proof.
  exact (proj1 (get_playwright_browser_caches quiet_world
                  (fresh_state cdp_config)
                  (snd (get_playwright_browser quiet_world
                          (fresh_state cdp_config)))
                  2 eq_refl)).
Defined.

Lemma init_raise_inversion w s pw e s1 :
  playwright_browser (self s) = PyNone ->
  async_playwright_start w (trace s) = Done pw ->
  get_playwright_browser w s = (Raise e, s1) ->
  _setup_browser w pw (record_event EvPlaywrightStart s) = (Raise e, s1).
Proof.
  intros P S H. rewrite (get_playwright_browser_init w s pw P S) in H.
  unfold bind in H.
  destruct (_setup_browser w pw (record_event EvPlaywrightStart s))
    as [[b | e0] s2]; [discriminate H | exact H].
Qed.

Lemma setup_browser_raise_logged w pw s e s1 :
  _setup_browser w pw s = (Raise e, s1) ->
  exists tr, trace s1 = tr ++ [init_failure_log e].
Proof.
  rewrite setup_browser_dispatch.
  set (m := match truthy (cdp_url (config (self s))) with
            | Some _ => _ | None => _ end).
  intro H. destruct (m s) as [[b | e0] s2] eqn:R.
  - rewrite (logged_init_ok _ _ _ _ R) in H. discriminate H.
  - rewrite (logged_init_raise _ _ _ _ R) in H. inversion H; subst.
    exists (trace s2). reflexivity.
Qed.

Lemma expected_steps_without_engine b x :
  playwright b = PyNone -> playwright_browser b = PyNone ->
  In x (expected_steps b) ->
  (forall p, x <> EvPlaywrightStop p) /\ (forall p, x <> EvBrowserClose p).
Proof.
  intros P B I. unfold expected_steps in I. rewrite P, B in I.
  destruct (browser_context b), (temp_dir b); simpl in I;
    repeat match goal with
           | H : _ \/ _ |- _ => destruct H
           | H : False |- _ => destruct H
           end; subst; split; intros; discriminate.
Qed.

Lemma close_added_teardown_expected w s x :
  In x (added s (close w s)) -> is_teardown x = true ->
  In x (expected_steps (self s)).
Proof.
  intros I T. destruct (close_steps_prefix w s) as (d & rest & Tr & Ex).
  rewrite (added_app s (close w s) d Tr) in I.
  rewrite Ex. apply in_or_app. left.
  unfold teardown_actions. apply filter_In. split; assumption.
Qed.

(** X2. When the connection strategy fails after the engine was
    started, the exception reaches the caller after one error record,
    and the manager stores neither the engine handle nor a browser
    handle.  A [close] after that therefore never stops the engine that
    this initialization started, and closes no browser. *)
Theorem failed_init_leaves_engine_untracked
    (w : World) (s s1 : State) (pw : handle) (e : exn) :
  playwright (self s) = PyNone ->
  playwright_browser (self s) = PyNone ->
  async_playwright_start w (trace s) = Done pw ->
  get_playwright_browser w s = (Raise e, s1) ->
  playwright (self s1) = PyNone /\
  playwright_browser (self s1) = PyNone /\
  (exists tr, trace s1 = tr ++ [init_failure_log e]) /\
  (forall p, ~ In (EvPlaywrightStop p) (added s1 (close w s1))) /\
  (forall p, ~ In (EvBrowserClose p) (added s1 (close w s1))).
Proof.
  intros Pw P S H.
  pose proof (init_raise_inversion w s pw e s1 P S H) as R.
  pose proof (wpho_setup_browser w pw (record_event EvPlaywrightStart s))
    as (_ & _ & F1 & F2).
  rewrite R in F1, F2. simpl in F1, F2. rewrite Pw in F1. rewrite P in F2.
  split; [exact F1|]. split; [exact F2|].
  split; [exact (setup_browser_raise_logged w pw _ e s1 R)|].
  split; intros p I;
    destruct (expected_steps_without_engine (self s1) _ F1 F2
                (close_added_teardown_expected w s1 _ I eq_refl)) as [A B];
    [exact (A p eq_refl) | exact (B p eq_refl)].
Qed.

Lemma failed_init_leaves_engine_untracked_witness :
  playwright
    (self (snd (get_playwright_browser unreachable_world
                  (fresh_state chrome_config)))) = PyNone.
Proof.
  exact (proj1 (failed_init_leaves_engine_untracked unreachable_world
                  (fresh_state chrome_config)
                  (snd (get_playwright_browser unreachable_world
                          (fresh_state chrome_config)))
                  1 chrome_debug_mode_error
                  eq_refl eq_refl eq_refl eq_refl)).
Defined.

(** X3. Initialization followed by [close] brings the manager back to
    its attributes before initialization with the four handles [None],
    whether initialization succeeded or not; started on a freshly
    constructed manager that is the freshly constructed manager again. *)
Theorem init_then_close_round_trip (w : World) (s : State) (cfg : BrowserConfig) :
  self (snd (close w (snd (get_playwright_browser w s)))) = cleared (self s) /\
  self (snd (close w (snd (get_playwright_browser w (fresh_state cfg)))))
    = __init__ cfg.
Proof.
  assert (G : forall s0,
             self (snd (close w (snd (get_playwright_browser w s0))))
             = cleared (self s0)).
  { intro s0. rewrite close_result. simpl.
    apply cleared_same_config. apply preserves_get_playwright_browser. }
  split; [apply G | rewrite G; reflexivity].
Qed.

(** X4. The teardown steps that [close] attempts are an initial part of
    the steps the manager calls for, in the order context, browser,
    engine, temporary directory: no step is attempted for a handle that
    is not there, none twice, none out of order. *)
Theorem close_steps_in_order (w : World) (s : State) :
  exists rest,
    expected_steps (self s) =
    teardown_actions (added s (close w s)) ++ rest.
Proof.
  destruct (close_steps_prefix w s) as (d & rest & Tr & Ex).
  exists rest. rewrite (added_app s (close w s) d Tr). exact Ex.
Qed.

(** X5. With force-keep-alive off, no attribute deleted and every
    teardown call succeeding, [close] makes exactly the steps the
    manager calls for, each once and in order, writes no log record and
    ends with [gc.collect()]. *)
Theorem close_makes_every_step (w : World) (s : State) :
  _force_keep_browser_alive (config (self s)) = false ->
  bound (playwright (self s)) -> bound (playwright_browser (self s)) ->
  bound (browser_context (self s)) -> bound (temp_dir (self s)) ->
  (forall h x, pw_context_close w h x = Done tt) ->
  (forall h x, pw_browser_close w h x = Done tt) ->
  (forall h x, pw_stop w h x = Done tt) ->
  (forall h x, tempdir_cleanup w h x = Done tt) ->
  added s (close w s) = expected_steps (self s) ++ [EvGcCollect].
Proof.
  intros F Bp Bb Bc Bt Hc Hb Hs Ht. apply added_app.
  destruct s as [[[hl ds ex cip wss cdp bt udd ueb px keep] pw pb bc td dsa] tr].
  simpl in F. subst keep. unfold bound in *. simpl in Bp, Bb, Bc, Bt.
  destruct bc as [| |c], pb as [| |b], pw as [| |p], td as [| |d];
    try congruence;
    cbv [close try_finally close_body try_except bind get_self negb
         close_context close_playwright_browser stop_playwright
         cleanup_temp_dir reset_handles drop_temp_dir log_close_failure
         log emit call getattr_ set_browser_context set_playwright_browser set_playwright
         set_temp_dir set_self ret any_Exception record_event
         self trace config _force_keep_browser_alive playwright
         playwright_browser browser_context temp_dir disable_security_args
         fst snd];
    repeat (first [rewrite Hc | rewrite Hb | rewrite Hs | rewrite Ht];
            cbv beta iota);
    rewrite <- ?app_assoc; reflexivity.
Qed.

Lemma close_makes_every_step_witness :
  added live_state (close quiet_world live_state) =
  [EvContextClose 3; EvBrowserClose 2; EvPlaywrightStop 1;
   EvTempCleanup "/tmp/edge_profile_x"; EvGcCollect].
Proof.
  refine (close_makes_every_step quiet_world live_state eq_refl _ _ _ _
            _ _ _ _); try discriminate; intros; reflexivity.
Defined.

(* ================================================================== *)
(** ** Further properties: the standard launch *)

Lemma setup_standard_edge_no_profile w pw s :
  browser_type (config (self s)) = "msedge" ->
  truthy (user_data_dir (config (self s))) = None ->
  _setup_standard_browser w pw s =
  (edge_path <- _get_edge_path w ;; launch_edge_disposable w edge_path) s.
Proof.
  intros B D. unfold _setup_standard_browser, bind at 1, get_self.
  rewrite B, D. simpl. destruct (use_existing_browser (config (self s)));
    reflexivity.
Qed.

(** X6. The msedge kind without a user-data directory (whatever
    use-existing-browser says): once the Edge executable is found, a
    temporary directory is created and Edge is launched on it, with the
    standard flags, the disable-security flags of the manager, the extra
    arguments and the user-data-dir argument, in that order.  The
    directory is stored in [temp_dir] only after a successful launch:
    when the launch raises, the manager is left as it was and does not
    know the directory. *)
Theorem edge_disposable_launch
    (w : World) (pw : handle) (s s1 : State) (edge tmp : string) :
  let cfg := config (self s) in
  let h := trace s1 ++ [EvTemporaryDirectory edge_profile_prefix] in
  let launch_ev :=
    EvLaunch "chromium" (headless cfg) (Some edge)
      (edge_disposable_args (self s) tmp) (proxy cfg) in
  browser_type cfg = "msedge" ->
  truthy (user_data_dir cfg) = None ->
  _get_edge_path w s = (Ok edge, s1) ->
  tempfile_TemporaryDirectory w (trace s1) edge_profile_prefix = Done tmp ->
  _setup_standard_browser w pw s =
  match pw_launch w h "chromium" (headless cfg) (Some edge)
          (edge_disposable_args (self s) tmp) (proxy cfg) with
  | Done b =>
      (Ok b, {| self := with_temp_dir (Obj tmp) (self s);
                trace := h ++ [launch_ev] |})
  | Failed msg =>
      (Raise (mkExn PlaywrightError msg),
       {| self := self s; trace := h ++ [launch_ev] |})
  end.
Proof.
  intros cfg h launch_ev B D E T.
  assert (S1 : self s1 = self s).
  { rewrite <- (keeps_get_edge_path w s), E. reflexivity. }
  rewrite (setup_standard_edge_no_profile w pw s B D).
  unfold bind at 1. rewrite E.
  destruct s1 as [b1 tr1]. cbn [self trace] in *. subst b1.
  subst cfg h launch_ev.
  unfold launch_edge_disposable, edge_disposable_args.
  unfold bind at 1, get_self. unfold bind at 1, call. cbn [trace].
  rewrite T. unfold bind at 1. rewrite launch_spec.
  unfold record_event. cbn [self trace]. cbv zeta.
  destruct (pw_launch w _ "chromium" _ (Some edge) _ _) as [b | msg];
    reflexivity.
Qed.

Lemma edge_disposable_launch_witness :
  _setup_standard_browser edge_world 1 (fresh_state edge_plain_config) =
  (Ok 2,
   {| self := with_temp_dir (Obj "/tmp/edge_profile_x")
                (__init__ edge_plain_config);
      trace :=
        [EvExists "/usr/bin/microsoft-edge";
         EvTemporaryDirectory edge_profile_prefix;
         EvLaunch "chromium" false (Some "/usr/bin/microsoft-edge")
           (edge_disposable_args (__init__ edge_plain_config)
              "/tmp/edge_profile_x") None] |}).
Proof.
  exact (edge_disposable_launch edge_world 1 (fresh_state edge_plain_config)
           {| self := __init__ edge_plain_config;
              trace := [EvExists "/usr/bin/microsoft-edge"] |}
           "/usr/bin/microsoft-edge" "/tmp/edge_profile_x"
           eq_refl eq_refl eq_refl eq_refl).
Defined.

(** X7. A browser kind other than msedge is launched in one call and
    nothing else is done: no probe, no temporary directory, no
    executable path; the arguments are the standard flags, the
    disable-security flags of the manager and the extra arguments, in
    that order.  The launcher is the one named by the kind for
    chromium, firefox and webkit, and chromium for a name the engine
    does not have. *)
Theorem standard_launch_other_kinds (w : World) (pw : handle) (s : State) :
  let cfg := config (self s) in
  let kind := browser_type cfg in
  let launcher :=
    if String.eqb kind "chromium" || String.eqb kind "firefox"
       || String.eqb kind "webkit" then kind else "chromium" in
  let launch_ev :=
    EvLaunch launcher (headless cfg) None (standard_args (self s)) (proxy cfg) in
  kind <> "msedge" ->
  pw_has_other_attr w kind = false ->
  _setup_standard_browser w pw s =
  match pw_launch w (trace s) launcher (headless cfg) None
          (standard_args (self s)) (proxy cfg) with
  | Done b => (Ok b, record_event launch_ev s)
  | Failed msg => (Raise (mkExn PlaywrightError msg), record_event launch_ev s)
  end.
Proof.
  intros cfg kind launcher launch_ev K A.
  unfold _setup_standard_browser, bind at 1, get_self.
  apply String.eqb_neq in K. fold cfg. fold kind. rewrite K.
  unfold browser_launcher. rewrite A. subst launcher launch_ev.
  destruct (String.eqb kind "chromium" || String.eqb kind "firefox"
            || String.eqb kind "webkit");
    rewrite launch_spec; reflexivity.
Qed.

Lemma standard_launch_other_kinds_witness :
  _setup_standard_browser quiet_world 1 (fresh_state opera_config) =
  (Ok 2,
   record_event
     (EvLaunch "chromium" true None (launch_args ++ ["--lang=en"]) None)
     (fresh_state opera_config)).
Proof.
  refine (standard_launch_other_kinds quiet_world 1 (fresh_state opera_config)
            _ eq_refl).
  discriminate.
Defined.

(** X8. The msedge kind outside the reuse branch, on Windows or Linux
    with none of the known install paths present: the launch fails with
    the not-found error after probing exactly those paths; no temporary
    directory is created and nothing is launched. *)
Theorem edge_launch_without_edge (w : World) (pw : handle) (s : State) :
  let cfg := config (self s) in
  browser_type cfg = "msedge" ->
  use_existing_browser cfg = false \/ truthy (user_data_dir cfg) = None ->
  platform_system w = "Windows" \/ platform_system w = "Linux" ->
  (forall h p, In p (known_edge_paths (platform_system w)) ->
               os_path_exists w h p = false) ->
  _setup_standard_browser w pw s =
  (Raise edge_not_found,
   {| self := self s;
      trace := trace s ++ map EvExists (known_edge_paths (platform_system w)) |}).
Proof.
  intros cfg B N Sy Miss.
  assert (R : _setup_standard_browser w pw s =
              (edge_path <- _get_edge_path w ;;
               match truthy (user_data_dir cfg) with
               | Some udd => launch_edge_with_profile w edge_path udd
               | None => launch_edge_disposable w edge_path
               end) s).
  { unfold _setup_standard_browser, bind at 1, get_self. fold cfg.
    rewrite B. simpl.
    destruct N as [N | N]; rewrite N;
      [| destruct (use_existing_browser cfg)]; reflexivity. }
  rewrite R. unfold bind. rewrite (edge_path_not_found w s Sy Miss).
  reflexivity.
Qed.

Lemma edge_launch_without_edge_witness :
  _setup_standard_browser quiet_world 1 (fresh_state edge_profile_config) =
  (Raise edge_not_found,
   {| self := __init__ edge_profile_config;
      trace := map EvExists linux_edge_paths |}).
Proof.
  refine (edge_launch_without_edge quiet_world 1
            (fresh_state edge_profile_config) eq_refl _ _ _).
  - left. reflexivity.
  - right. reflexivity.
  - intros. reflexivity.
Defined.

(* ================================================================== *)
(** ** Further properties: Edge discovery and the Edge-reuse path *)

Lemma first_existing_first w pre p post s :
  (forall h q, In q pre -> os_path_exists w h q = false) ->
  (forall h, os_path_exists w h p = true) ->
  first_existing w (pre ++ p :: post) s =
  (Ok (Some p),
   {| self := self s; trace := trace s ++ map EvExists (pre ++ [p]) |}).
Proof.
  revert s. induction pre as [|q qs IH]; intros s F T; simpl.
  - unfold bind, query. rewrite T. reflexivity.
  - unfold bind, query. rewrite (F _ q) by (left; reflexivity).
    cbv beta iota. rewrite IH; [| intros; apply F; right; assumption | exact T].
    unfold record_event; simpl. rewrite <- app_assoc. reflexivity.
Qed.

(** X9. On Windows and on Linux the discovery returns the first known
    path that exists, in the order of the list, and stops probing there:
    the paths listed after it are never looked at. *)
Theorem edge_path_first_existing
    (w : World) (s : State) (pre post : list string) (p : string) :
  platform_system w = "Windows" \/ platform_system w = "Linux" ->
  known_edge_paths (platform_system w) = pre ++ p :: post ->
  (forall h q, In q pre -> os_path_exists w h q = false) ->
  (forall h, os_path_exists w h p = true) ->
  _get_edge_path w s =
  (Ok p, {| self := self s; trace := trace s ++ map EvExists (pre ++ [p]) |}).
Proof.
  intros Sy K F T. unfold _get_edge_path, known_edge_paths in *.
  destruct Sy as [E | E].
  - assert (W : String.eqb (platform_system w) "Windows" = true)
      by (rewrite E; reflexivity).
    rewrite W in *. unfold bind. rewrite K.
    rewrite (first_existing_first w pre p post s F T). reflexivity.
  - assert (W : String.eqb (platform_system w) "Windows" = false)
      by (rewrite E; reflexivity).
    assert (D : String.eqb (platform_system w) "Darwin" = false)
      by (rewrite E; reflexivity).
    assert (L : String.eqb (platform_system w) "Linux" = true)
      by (rewrite E; reflexivity).
    rewrite W, D, L in *. unfold bind. rewrite K.
    rewrite (first_existing_first w pre p post s F T). reflexivity.
Qed.

Lemma edge_path_first_existing_witness :
  _get_edge_path windows_two_edges (fresh_state default_config) =
  (Ok "C:\Program Files (x86)\Microsoft\Edge\Application\msedge.exe",
   {| self := __init__ default_config;
      trace :=
        [EvExists
           "C:\Program Files (x86)\Microsoft\Edge\Application\msedge.exe"] |}).
Proof.
  refine (edge_path_first_existing windows_two_edges
            (fresh_state default_config) []
            ["C:\Program Files\Microsoft\Edge\Application\msedge.exe"]
            "C:\Program Files (x86)\Microsoft\Edge\Application\msedge.exe"
            _ eq_refl _ _).
  - left. reflexivity.
  - intros h q [].
  - intro h. reflexivity.
Defined.

(** X10. The Edge-reuse path with a debug endpoint that refuses every
    connection: after the first probe the executable is looked up and
    spawned with the remote-debugging port, the user-data directory and
    no-first-run; thirty probes follow, a second of blocking sleep after
    each; then the timeout error is raised, and no attach over CDP is
    attempted. *)
Theorem edge_reuse_never_up
    (w : World) (pw : handle) (s s1 : State) (edge udd : string) :
  (forall h, exists msg,
      requests_get w h version_url 2 = HttpConnectionError msg) ->
  _get_edge_path w (record_event probe s) = (Ok edge, s1) ->
  user_data_dir (config (self s)) = Some udd ->
  subprocess_Popen w (trace s1 ++ [edge_starting_log]) (edge_cmd edge udd)
    = Done tt ->
  _connect_to_existing_edge w pw s =
  (Raise edge_timeout,
   {| self := self s;
      trace := trace s1
               ++ edge_starting_log :: EvPopen (edge_cmd edge udd)
                  :: concat (repeat [probe; EvTimeSleep 1] 30) |}).
Proof.
  intros R E U P.
  assert (S1 : self s1 = self s).
  { pose proof (keeps_get_edge_path w (record_event probe s)) as K.
    rewrite E in K. exact K. }
  rewrite connect_to_existing_edge_unfold. unfold bind at 1.
  destruct (R (trace s)) as [msg H].
  rewrite (probe_existing_refused _ _ _ _ _ H).
  change ((ret tt ;;; ret None) (record_event probe s))
    with (@Ok (option handle) None, record_event probe s).
  cbv beta iota.
  rewrite (edge_poll_exhausted_times_out w (record_event probe s) edge s1 udd
             {| self := self s;
                trace := trace s1
                  ++ edge_starting_log :: EvPopen (edge_cmd edge udd)
                     :: concat (repeat [probe; EvTimeSleep 1] 30) |}
             E U P).
  - reflexivity.
  - unfold max_wait. rewrite (edge_poll_refused w 30 _ R).
    unfold record_event. cbn [self trace]. rewrite S1.
    rewrite <- !app_assoc. reflexivity.
Qed.

Lemma edge_reuse_never_up_witness :
  fst (_connect_to_existing_edge edge_never_up 1 (fresh_state edge_reuse_config))
  = Raise edge_timeout.
Proof.
  refine (f_equal fst
            (edge_reuse_never_up edge_never_up 1 (fresh_state edge_reuse_config)
               {| self := __init__ edge_reuse_config;
                  trace := [probe; EvExists "/usr/bin/microsoft-edge"] |}
               "/usr/bin/microsoft-edge" "/home/u/.config/microsoft-edge"
               _ eq_refl eq_refl eq_refl)).
  intro h. exists "connection refused". reflexivity.
Defined.

(** X11. The Edge-reuse path with a debug endpoint that answers the
    first probe with 200: the one thing done after the probe is the
    attach over CDP to port 9222 with the 20-second timeout; Edge is
    neither looked up nor spawned, and a failure of the attach reaches
    the caller as the engine raised it. *)
Theorem edge_reuse_attaches_to_running
    (w : World) (pw : handle) (s : State) :
  requests_get w (trace s) version_url 2 = HttpStatus 200 ->
  let s1 := record_event
              (EvLog INFO "Found existing Edge instance, connecting to it")
              (record_event probe s) in
  _connect_to_existing_edge w pw s =
  match pw_connect_over_cdp w (trace s1) debug_endpoint (Some 20000%Z) with
  | Done b => (Ok b, record_event attach s1)
  | Failed msg => (Raise (mkExn PlaywrightError msg), record_event attach s1)
  end.
Proof.
  intros H s1. rewrite connect_to_existing_edge_unfold. unfold bind at 1.
  rewrite (probe_existing_200 _ _ _ _ H). fold s1. cbv zeta.
  destruct (pw_connect_over_cdp w (trace s1) debug_endpoint (Some 20000%Z));
    reflexivity.
Qed.

Lemma edge_reuse_attaches_to_running_witness :
  _connect_to_existing_edge (edge_listening (Failed "Timeout 20000ms exceeded."))
    1 (fresh_state edge_reuse_config) =
  (Raise (mkExn PlaywrightError "Timeout 20000ms exceeded."),
   {| self := __init__ edge_reuse_config;
      trace := [probe;
                EvLog INFO "Found existing Edge instance, connecting to it";
                attach] |}).
Proof.
  exact (edge_reuse_attaches_to_running
           (edge_listening (Failed "Timeout 20000ms exceeded.")) 1
           (fresh_state edge_reuse_config) eq_refl).
Defined.

(* ================================================================== *)
(** ** Further properties: the defensive guards are never hit *)

Lemma logged_init_ext {A} (m m' : M A) s :
  m s = m' s -> logged_init m s = logged_init m' s.
Proof. intro H. unfold logged_init, try_except. rewrite H. reflexivity. Qed.

Lemma setup_cdp_behind_guard w pw s url :
  truthy (cdp_url (config (self s))) = Some url ->
  _setup_cdp w pw s = cdp_body w url s.
Proof.
  intro C. unfold _setup_cdp, bind at 1, get_self. rewrite C. reflexivity.
Qed.

Lemma setup_wss_behind_guard w pw s url :
  truthy (wss_url (config (self s))) = Some url ->
  _setup_wss w pw s = wss_body w url s.
Proof.
  intro C. unfold _setup_wss, bind at 1, get_self. rewrite C. reflexivity.
Qed.

(** X12. On the way in through [_setup_browser] the guards of
    [_setup_cdp], [_setup_wss] and [_setup_browser_with_instance] are
    never hit: each method is entered only with its endpoint or path
    set, so [_setup_browser] does what the bodies behind the guards do.
    The "... is required" errors come from a direct call with the
    value unset ([None] or empty) only, and then before anything is
    done. *)
Theorem required_value_guards_unreachable
    (w : World) (pw : handle) (s : State) :
  let cfg := config (self s) in
  _setup_browser w pw s =
  logged_init
    (match truthy (cdp_url cfg) with
     | Some url => cdp_body w url
     | None =>
         match truthy (wss_url cfg) with
         | Some url => wss_body w url
         | None =>
             match truthy (chrome_instance_path cfg) with
             | Some path => instance_body w path
             | None => _setup_standard_browser w pw
             end
         end
     end) s /\
  (truthy (cdp_url cfg) = None ->
   _setup_cdp w pw s = (Raise (mkExn ValueError "CDP URL is required"), s)) /\
  (truthy (wss_url cfg) = None ->
   _setup_wss w pw s = (Raise (mkExn ValueError "WSS URL is required"), s)) /\
  (truthy (chrome_instance_path cfg) = None ->
   _setup_browser_with_instance w pw s =
   (Raise (mkExn ValueError "Chrome instance path is required"), s)).
Proof.
  intro cfg. subst cfg. repeat split.
  - rewrite setup_browser_dispatch. apply logged_init_ext.
    destruct (truthy (cdp_url (config (self s)))) as [url |] eqn:C;
      [exact (setup_cdp_behind_guard w pw s url C)|].
    destruct (truthy (wss_url (config (self s)))) as [url |] eqn:W;
      [exact (setup_wss_behind_guard w pw s url W)|].
    destruct (truthy (chrome_instance_path (config (self s))))
      as [path |] eqn:I; [|reflexivity].
    exact (setup_with_instance_unfold w pw s path I).
  - intro C. unfold _setup_cdp, bind, get_self. rewrite C. reflexivity.
  - intro C. unfold _setup_wss, bind, get_self. rewrite C. reflexivity.
  - intro C. unfold _setup_browser_with_instance, bind, get_self.
    rewrite C. reflexivity.
Qed.

Lemma required_value_guards_unreachable_witness :
  _setup_cdp quiet_world 1 (fresh_state default_config) =
  (Raise (mkExn ValueError "CDP URL is required"), fresh_state default_config).
Proof.
  exact (proj1 (proj2 (required_value_guards_unreachable quiet_world 1
                         (fresh_state default_config))) eq_refl).
Defined.

(* ================================================================== *)
(** ** Further properties: the probe budget of the Edge-reuse path *)

Lemma count_probes_record ev s :
  count_probes (trace (record_event ev s)) =
  count_probes (trace s) + (if is_probe ev then 1 else 0).
Proof.
  unfold count_probes, record_event. cbn [trace].
  rewrite filter_app, length_app. cbn [filter].
  destruct (is_probe ev); reflexivity.
Qed.

Lemma first_existing_no_probe w paths s :
  count_probes (trace (snd (first_existing w paths s))) = count_probes (trace s).
Proof.
  revert s. induction paths as [|p ps IH]; intro s; [reflexivity|].
  cbn [first_existing]. unfold bind, query.
  destruct (os_path_exists w (trace s) p); cbv beta iota.
  - cbn [ret snd]. rewrite count_probes_record. cbn [is_probe]. lia.
  - rewrite IH, count_probes_record. cbn [is_probe]. lia.
Qed.

Lemma get_edge_path_no_probe w s :
  count_probes (trace (snd (_get_edge_path w s))) = count_probes (trace s).
Proof.
  unfold _get_edge_path.
  destruct (String.eqb (platform_system w) "Windows").
  { unfold bind. pose proof (first_existing_no_probe w windows_edge_paths s).
    destruct (first_existing w windows_edge_paths s) as [[[p|] | e] s1];
      assumption. }
  destruct (String.eqb (platform_system w) "Darwin"); [reflexivity|].
  destruct (String.eqb (platform_system w) "Linux"); [|reflexivity].
  unfold bind. pose proof (first_existing_no_probe w linux_edge_paths s).
  destruct (first_existing w linux_edge_paths s) as [[[p|] | e] s1];
    assumption.
Qed.

Lemma connect_over_cdp_no_probe w url t s :
  count_probes (trace (snd (connect_over_cdp w url t s))) = count_probes (trace s).
Proof.
  unfold connect_over_cdp, call.
  destruct (pw_connect_over_cdp w (trace s) url t); cbn [snd];
    rewrite count_probes_record; cbn [is_probe]; lia.
Qed.

Lemma start_new_edge_probes w s :
  count_probes (trace (snd (start_new_edge w s))) <= count_probes (trace s) + 30.
Proof.
  unfold start_new_edge, bind at 1, get_self. unfold bind at 1.
  pose proof (get_edge_path_no_probe w s) as G.
  destruct (_get_edge_path w s) as [[edge | e] s1]; cbn [snd] in G |- *;
    [| lia].
  unfold bind at 1, log, emit.
  destruct (user_data_dir (config (self s))) as [udd |].
  - unfold bind at 1, call.
    destruct (subprocess_Popen w _ (edge_cmd edge udd)).
    + unfold bind at 1.
      match goal with
      | |- context [for_range max_wait (edge_poll_step w) ?st] =>
          pose proof (edge_poll_at_most w max_wait st) as L;
          rewrite !count_probes_record in L; cbn [is_probe] in L;
          destruct (for_range max_wait (edge_poll_step w) st)
            as [[[] | e] s2]; cbn [snd] in L |- *
      end; unfold max_wait in L.
      * rewrite connect_over_cdp_no_probe. lia.
      * unfold raise. cbn [snd]. lia.
      * lia.
    + cbn [snd]. rewrite !count_probes_record. cbn [is_probe]. lia.
  - unfold raise. cbn [snd]. rewrite count_probes_record. cbn [is_probe]. lia.
Qed.

(** X17. The Edge-reuse path probes the debug endpoint at most 30 times
    from the lookup of the executable on (the poll budget [max_wait]
    after the spawn), and at most 31 times in all, whatever the endpoint
    answers and however the method ends. *)
Theorem edge_reuse_probe_budget (w : World) (pw : handle) (s : State) :
  count_probes (trace (snd (start_new_edge w s)))
    <= count_probes (trace s) + 30 /\
  count_probes (trace (snd (_connect_to_existing_edge w pw s)))
    <= count_probes (trace s) + 31.
Proof.
  split; [apply start_new_edge_probes|].
  rewrite connect_to_existing_edge_unfold. unfold bind at 1.
  destruct (requests_get w (trace s) version_url 2) as [n | msg | msg] eqn:H.
  - destruct (Z.eq_dec n 200) as [-> | N].
    + rewrite (probe_existing_200 _ _ _ _ H). cbv zeta.
      destruct (pw_connect_over_cdp w _ debug_endpoint (Some 20000%Z));
        cbn [ret snd]; rewrite !count_probes_record; cbn [is_probe attach probe];
        lia.
    + rewrite (probe_existing_not_200 _ _ _ _ _ H N).
      pose proof (start_new_edge_probes w (record_event probe s)) as B.
      rewrite count_probes_record in B. cbn [is_probe probe] in B. lia.
  - rewrite (probe_existing_refused _ _ _ _ _ H).
    change ((ret tt ;;; ret None) (record_event probe s))
      with (@Ok (option handle) None, record_event probe s).
    pose proof (start_new_edge_probes w (record_event probe s)) as B.
    rewrite count_probes_record in B. cbn [is_probe probe] in B. lia.
  - rewrite (probe_existing_other_error _ _ _ _ _ H). cbn [snd].
    rewrite count_probes_record. cbn [is_probe probe]. lia.
Qed.

(* ================================================================== *)
(** ** Further properties: where the profile copy puts things *)

Local Open Scope string_scope.

Lemma str_app_assoc (a b c : string) : (a ++ b) ++ c = a ++ b ++ c.
Proof. induction a as [|x a IH]; simpl; [reflexivity | rewrite IH; reflexivity]. Qed.

Lemma is_empty_app a b : is_empty (a ++ b) = is_empty a && is_empty b.
Proof. destruct a; reflexivity. Qed.

Lemma endswith_sep_app a b :
  is_empty b = false -> endswith_sep (a ++ b) = endswith_sep b.
Proof.
  intro N. induction a as [|x a IH]; [reflexivity|].
  simpl. rewrite IH.
  destruct (a ++ b) eqn:E; [|reflexivity].
  destruct a; simpl in E; [subst b; discriminate N | discriminate E].
Qed.

Lemma split_last_sep_app a b :
  is_empty (fst (split_last_sep b)) = false ->
  split_last_sep (a ++ b) =
  (a ++ fst (split_last_sep b), snd (split_last_sep b)).
Proof.
  intro N. induction a as [|x a IH]; simpl.
  - destruct (split_last_sep b); reflexivity.
  - rewrite IH. rewrite is_empty_app, N, andb_false_r. reflexivity.
Qed.

Lemma all_sep_app a b : all_sep (a ++ b) = all_sep a && all_sep b.
Proof.
  induction a as [|x a IH]; simpl; [reflexivity|].
  rewrite IH, andb_assoc. reflexivity.
Qed.

Lemma rstrip_sep_app_keep a b :
  is_empty (rstrip_sep b) = false -> rstrip_sep (a ++ b) = a ++ rstrip_sep b.
Proof.
  intro N. induction a as [|x a IH]; simpl; [reflexivity|].
  rewrite IH, is_empty_app, N, andb_false_r. reflexivity.
Qed.

Lemma rstrip_sep_app_drop a b :
  is_empty (rstrip_sep b) = true -> rstrip_sep (a ++ b) = rstrip_sep a.
Proof.
  intro N. induction a as [|x a IH]; simpl.
  - destruct (rstrip_sep b); [reflexivity | discriminate N].
  - rewrite IH. reflexivity.
Qed.

Lemma rstrip_sep_id a : endswith_sep a = false -> rstrip_sep a = a.
Proof.
  induction a as [|x a IH]; [reflexivity|]. simpl. intro E.
  destruct a as [|y a].
  - simpl. rewrite E. reflexivity.
  - rewrite (IH E). reflexivity.
Qed.

Lemma wf_dir_not_all_sep d : wf_dir d -> all_sep d = false.
Proof.
  intros [N E]. induction d as [|x d IH]; [contradiction|].
  simpl in *. destruct d as [|y d].
  - rewrite E. reflexivity.
  - rewrite IH; [apply andb_false_r | discriminate | exact E].
Qed.

Lemma wf_dir_not_empty d : wf_dir d -> is_empty d = false.
Proof. intros [N _]. destruct d; [contradiction | reflexivity]. Qed.

Lemma prefix_app a b : String.prefix a (a ++ b) = true.
Proof.
  induction a as [|x a IH]; simpl; [destruct b; reflexivity|].
  destruct (ascii_dec x x) as [_ | N]; [exact IH | contradiction].
Qed.

Lemma remove_all_aux_skip old x rest :
  remove_all_aux old (x ++ rest) (String.length x) = remove_all_aux old rest 0.
Proof. induction x as [|c x IH]; simpl; [destruct rest; reflexivity | exact IH]. Qed.

Lemma str_remove_app old rest :
  old <> EmptyString -> str_remove old (old ++ rest) = str_remove old rest.
Proof.
  intro N. unfold str_remove. destruct old as [|c old]; [contradiction|].
  cbn [is_empty]. change (String c old ++ rest) with (String c (old ++ rest)).
  cbn [remove_all_aux].
  change (String c (old ++ rest)) with (String c old ++ rest).
  rewrite prefix_app. cbn [String.length]. rewrite Nat.sub_succ, Nat.sub_0_r.
  apply remove_all_aux_skip.
Qed.

Lemma join2_wf a b :
  wf_dir a -> String.prefix "/" b = false -> join2 a b = a ++ "/" ++ b.
Proof.
  intros W P. unfold join2. rewrite P, (wf_dir_not_empty a W).
  destruct W as [_ E]. rewrite E. reflexivity.
Qed.

Lemma wf_dir_app a b :
  is_empty b = false -> endswith_sep b = false -> wf_dir (a ++ b).
Proof.
  intros N E. split.
  - destruct a; simpl; [|discriminate]. destruct b; [discriminate N | discriminate].
  - rewrite endswith_sep_app by exact N. exact E.
Qed.

Lemma join_two src a b :
  wf_dir src -> String.prefix "/" a = false -> String.prefix "/" b = false ->
  is_empty a = false -> endswith_sep a = false ->
  os_path_join src [a; b] = src ++ "/" ++ a ++ "/" ++ b.
Proof.
  intros W Pa Pb Na Ea. unfold os_path_join. cbn [fold_left].
  rewrite (join2_wf src a W Pa).
  rewrite join2_wf; [| | exact Pb].
  - rewrite !str_app_assoc. reflexivity.
  - apply wf_dir_app.
    + reflexivity.
    + change ("/" ++ a) with (String "/" a). cbn [endswith_sep].
      destruct a; [discriminate Na | exact Ea].
Qed.

Lemma join_one src a :
  wf_dir src -> String.prefix "/" a = false ->
  os_path_join src [a] = src ++ "/" ++ a.
Proof. intros W Pa. unfold os_path_join. cbn [fold_left]. apply join2_wf; assumption. Qed.

Lemma cookies_files_wf src :
  wf_dir src ->
  cookies_files src =
  [src ++ "/Default/Cookies"; src ++ "/Default/Network/Cookies";
   src ++ "/Cookies"].
Proof.
  intro W. unfold cookies_files.
  rewrite (join_two src "Default" "Cookies" W) by reflexivity.
  rewrite (join_one src "Cookies" W) by reflexivity.
  unfold os_path_join. cbn [fold_left].
  rewrite (join2_wf src "Default" W) by reflexivity.
  rewrite (join2_wf (src ++ "/" ++ "Default") "Network")
    by (try apply wf_dir_app; reflexivity).
  rewrite (join2_wf ((src ++ "/" ++ "Default") ++ "/" ++ "Network") "Cookies")
    by (try (rewrite str_app_assoc; apply wf_dir_app); reflexivity).
  rewrite !str_app_assoc. reflexivity.
Qed.

Lemma local_storage_paths_wf src :
  wf_dir src ->
  local_storage_paths src =
  [src ++ "/Default/Local Storage"; src ++ "/Local Storage"].
Proof.
  intro W. unfold local_storage_paths.
  rewrite (join_two src "Default" "Local Storage" W) by reflexivity.
  rewrite (join_one src "Local Storage" W) by reflexivity.
  reflexivity.
Qed.

(** One present cookie file, with every call succeeding. *)
Lemma copy_cookie_file_place w src tgt rel s :
  wf_dir src -> clear_of src rel ->
  is_empty (fst (split_last_sep rel)) = false ->
  (forall h p, os_path_exists w h p = true) ->
  (forall h p, os_makedirs w h p = Done tt) ->
  (forall h a b, shutil_copy2 w h a b = Done tt) ->
  copy_cookie_file w src tgt (src ++ rel) s =
  (Ok tt,
   {| self := self s;
      trace :=
        (trace s
         ++ [EvExists (src ++ rel);
             EvMakedirs (os_path_join tgt [lstrip_sep (os_path_dirname rel)]);
             EvCopy2 (src ++ rel)
               (os_path_join
                  (os_path_join tgt [lstrip_sep (os_path_dirname rel)])
                  [snd (split_last_sep rel)]);
             EvLog INFO ("Copied cookies from " ++ src ++ rel)])%list |}).
Proof.
  intros [N _] C Sl Ex Mk Cp.
  unfold copy_cookie_file, bind at 1, query. rewrite Ex. cbv beta iota zeta.
  rewrite (str_remove_app src rel N), C.
  unfold os_path_basename. rewrite (split_last_sep_app src rel Sl). cbn [snd].
  unfold bind at 1, call. cbn [trace record_event]. rewrite Mk.
  unfold try_except, bind, call, log, emit. cbn [trace record_event self].
  rewrite Cp. unfold record_event. cbn [trace self].
  rewrite <- !app_assoc. reflexivity.
Qed.

(** One present local-storage directory, with every call succeeding. *)
Lemma copy_local_storage_place w src tgt rel s :
  wf_dir src -> clear_of src rel ->
  (forall h p, os_path_exists w h p = true) ->
  (forall h p, os_path_isdir w h p = true) ->
  (forall h p, os_makedirs w h p = Done tt) ->
  (forall h a b, shutil_copytree w h a b = Done tt) ->
  copy_local_storage w src tgt (src ++ rel) s =
  (Ok tt,
   {| self := self s;
      trace :=
        (trace s
         ++ [EvExists (src ++ rel); EvIsdir (src ++ rel);
             EvMakedirs
               (os_path_dirname (os_path_join tgt [lstrip_sep rel]));
             EvCopytree (src ++ rel) (os_path_join tgt [lstrip_sep rel]);
             EvLog INFO ("Copied local storage from " ++ src ++ rel)])%list |}).
Proof.
  intros [N _] C Ex Dr Mk Cp.
  unfold copy_local_storage, bind at 1, query. rewrite Ex. cbv beta iota.
  unfold bind at 1. rewrite Dr. cbv beta iota zeta.
  rewrite (str_remove_app src rel N), C.
  unfold try_except, bind, call, log, emit. cbn [trace record_event self].
  rewrite Mk. cbn [trace record_event self]. rewrite Cp.
  unfold record_event. cbn [trace self].
  rewrite <- !app_assoc. reflexivity.
Qed.

Lemma target_dir_default tgt :
  wf_dir tgt ->
  os_path_join tgt [lstrip_sep (os_path_dirname "/Default/Cookies")]
  = tgt ++ "/Default".
Proof. intro W. exact (join_one tgt "Default" W eq_refl). Qed.

Lemma target_dir_network tgt :
  wf_dir tgt ->
  os_path_join tgt [lstrip_sep (os_path_dirname "/Default/Network/Cookies")]
  = tgt ++ "/Default/Network".
Proof. intro W. exact (join_one tgt "Default/Network" W eq_refl). Qed.

Lemma target_dir_root tgt :
  wf_dir tgt ->
  os_path_join tgt [lstrip_sep (os_path_dirname "/Cookies")] = tgt ++ "/".
Proof. intro W. exact (join_one tgt "" W eq_refl). Qed.

Lemma target_file_under tgt dir :
  is_empty dir = false -> endswith_sep dir = false ->
  os_path_join (tgt ++ dir) ["Cookies"] = tgt ++ dir ++ "/Cookies".
Proof.
  intros N E. rewrite (join_one (tgt ++ dir) "Cookies") by
    (try apply wf_dir_app; assumption || reflexivity).
  apply str_app_assoc.
Qed.

Lemma target_file_root tgt :
  os_path_join (tgt ++ "/") ["Cookies"] = tgt ++ "/Cookies".
Proof.
  unfold os_path_join, join2. cbn [fold_left String.prefix].
  rewrite (endswith_sep_app tgt "/") by reflexivity.
  rewrite orb_true_r. apply str_app_assoc.
Qed.

Lemma target_ls_default tgt :
  wf_dir tgt ->
  os_path_join tgt [lstrip_sep "/Default/Local Storage"]
  = tgt ++ "/Default/Local Storage".
Proof. intro W. exact (join_one tgt "Default/Local Storage" W eq_refl). Qed.

Lemma target_ls_root tgt :
  wf_dir tgt ->
  os_path_join tgt [lstrip_sep "/Local Storage"] = tgt ++ "/Local Storage".
Proof. intro W. exact (join_one tgt "Local Storage" W eq_refl). Qed.

Lemma dirname_ls_default tgt :
  os_path_dirname (tgt ++ "/Default/Local Storage") = tgt ++ "/Default".
Proof.
  unfold os_path_dirname.
  rewrite (split_last_sep_app tgt "/Default/Local Storage") by reflexivity.
  cbn [fst]. change (fst (split_last_sep "/Default/Local Storage"))
    with "/Default/".
  rewrite is_empty_app, all_sep_app.
  change (is_empty "/Default/") with false.
  change (all_sep "/Default/") with false.
  rewrite !andb_false_r. cbn [negb andb].
  rewrite (rstrip_sep_app_keep tgt "/Default/") by reflexivity. reflexivity.
Qed.

Lemma dirname_ls_root tgt :
  wf_dir tgt -> os_path_dirname (tgt ++ "/Local Storage") = tgt.
Proof.
  intro W. unfold os_path_dirname.
  rewrite (split_last_sep_app tgt "/Local Storage") by reflexivity.
  cbn [fst]. change (fst (split_last_sep "/Local Storage")) with "/".
  rewrite is_empty_app, all_sep_app, (wf_dir_not_all_sep tgt W).
  change (is_empty "/") with false. rewrite andb_false_r. cbn [negb andb].
  rewrite (rstrip_sep_app_drop tgt "/") by reflexivity.
  apply rstrip_sep_id. exact (proj2 W).
Qed.

(** X13. A source profile that holds all five known paths, copied with
    every file-system call succeeding: each cookie file and each
    local-storage directory lands at the same relative place under the
    target profile ([Default/Cookies], [Default/Network/Cookies],
    [Cookies], [Default/Local Storage], [Local Storage]), in that order,
    after its directory was created.  This needs the two directory names
    not to be empty nor to end in a slash, and the source name not to
    occur inside the relative paths, as [str.replace] would cut it out
    there too. *)
Theorem profile_copy_keeps_layout (w : World) (src tgt : string) (s : State) :
  wf_dir src -> wf_dir tgt ->
  clear_of src "/Default/Cookies" ->
  clear_of src "/Default/Network/Cookies" ->
  clear_of src "/Cookies" ->
  clear_of src "/Default/Local Storage" ->
  clear_of src "/Local Storage" ->
  (forall h p, os_path_exists w h p = true) ->
  (forall h p, os_path_isdir w h p = true) ->
  (forall h p, os_makedirs w h p = Done tt) ->
  (forall h a b, shutil_copy2 w h a b = Done tt) ->
  (forall h a b, shutil_copytree w h a b = Done tt) ->
  fst (_copy_cookies_from_profile w src tgt s) = Ok tt /\
  actions (added s (_copy_cookies_from_profile w src tgt s)) =
  [ EvMakedirs tgt;
    EvExists (src ++ "/Default/Cookies");
    EvMakedirs (tgt ++ "/Default");
    EvCopy2 (src ++ "/Default/Cookies") (tgt ++ "/Default/Cookies");
    EvExists (src ++ "/Default/Network/Cookies");
    EvMakedirs (tgt ++ "/Default/Network");
    EvCopy2 (src ++ "/Default/Network/Cookies")
      (tgt ++ "/Default/Network/Cookies");
    EvExists (src ++ "/Cookies");
    EvMakedirs (tgt ++ "/");
    EvCopy2 (src ++ "/Cookies") (tgt ++ "/Cookies");
    EvExists (src ++ "/Default/Local Storage");
    EvIsdir (src ++ "/Default/Local Storage");
    EvMakedirs (tgt ++ "/Default");
    EvCopytree (src ++ "/Default/Local Storage")
      (tgt ++ "/Default/Local Storage");
    EvExists (src ++ "/Local Storage");
    EvIsdir (src ++ "/Local Storage");
    EvMakedirs tgt;
    EvCopytree (src ++ "/Local Storage") (tgt ++ "/Local Storage") ]%list.
Proof.
  intros Ws Wt C1 C2 C3 C4 C5 Ex Dr Mk Cp Ct.
  unfold _copy_cookies_from_profile.
  rewrite (cookies_files_wf src Ws), (local_storage_paths_wf src Ws).
  cbn [for_each]. unfold bind, call, ret. rewrite Mk. cbv beta iota.
  rewrite (copy_cookie_file_place w src tgt "/Default/Cookies" _ Ws C1
             eq_refl Ex Mk Cp). cbv beta iota.
  rewrite (copy_cookie_file_place w src tgt "/Default/Network/Cookies" _ Ws C2
             eq_refl Ex Mk Cp). cbv beta iota.
  rewrite (copy_cookie_file_place w src tgt "/Cookies" _ Ws C3
             eq_refl Ex Mk Cp). cbv beta iota.
  rewrite (copy_local_storage_place w src tgt "/Default/Local Storage" _ Ws C4
             Ex Dr Mk Ct). cbv beta iota.
  rewrite (copy_local_storage_place w src tgt "/Local Storage" _ Ws C5
             Ex Dr Mk Ct). cbv beta iota.
  split; [reflexivity|].
  rewrite (target_dir_default tgt Wt), (target_dir_network tgt Wt),
    (target_dir_root tgt Wt), (target_ls_default tgt Wt),
    (target_ls_root tgt Wt).
  change (snd (split_last_sep "/Default/Cookies")) with "Cookies".
  change (snd (split_last_sep "/Default/Network/Cookies")) with "Cookies".
  change (snd (split_last_sep "/Cookies")) with "Cookies".
  rewrite (target_file_under tgt "/Default") by reflexivity.
  rewrite (target_file_under tgt "/Default/Network") by reflexivity.
  rewrite target_file_root, dirname_ls_default, (dirname_ls_root tgt Wt).
  erewrite added_app.
  2:{ unfold record_event. cbn [snd trace self].
      rewrite <- !app_assoc. reflexivity. }
  reflexivity.
Qed.

Lemma profile_copy_keeps_layout_witness :
  fst (_copy_cookies_from_profile full_profile_world
         "/home/u/.config/microsoft-edge" "/tmp/edge_profile_x"
         (fresh_state edge_profile_config)) = Ok tt.
Proof.
  refine (proj1 (profile_copy_keeps_layout full_profile_world
                   "/home/u/.config/microsoft-edge" "/tmp/edge_profile_x"
                   (fresh_state edge_profile_config)
                   _ _ eq_refl eq_refl eq_refl eq_refl eq_refl _ _ _ _ _));
    try (split; [discriminate | reflexivity]); intros; reflexivity.
Defined.

(* ================================================================== *)
(** ** Further properties: witnesses of earlier lemmas, and the spawn *)

Local Open Scope list_scope.

Lemma copy_cookies_ok_when_dirs_ok_witness :
  fst (_copy_cookies_from_profile copies_fail_world "/src" "/tmp/edge_profile_x"
         (fresh_state default_config)) = Ok tt.
Proof.
  refine (copy_cookies_ok_when_dirs_ok copies_fail_world "/src"
            "/tmp/edge_profile_x" (fresh_state default_config) _).
  intros h p. reflexivity.
Defined.

Lemma copy_cookies_all_missing_witness :
  _copy_cookies_from_profile quiet_world "/src" "/tmp/edge_profile_x"
    (fresh_state default_config) =
  (Ok tt,
   {| self := __init__ default_config;
      trace := EvMakedirs "/tmp/edge_profile_x"
                 :: map EvExists (cookies_files "/src"
                                    ++ local_storage_paths "/src") |}).
Proof.
  refine (copy_cookies_all_missing quiet_world "/src" "/tmp/edge_profile_x"
            (fresh_state default_config) eq_refl _).
  intros h p _. reflexivity.
Defined.

Lemma edge_path_unsupported_system_witness :
  _get_edge_path freebsd_world (fresh_state default_config) =
  (Raise (mkExn OSError "Unsupported operating system: FreeBSD"),
   fresh_state default_config).
Proof.
  refine (edge_path_unsupported_system freebsd_world
            (fresh_state default_config) _ _ _); discriminate.
Defined.

(** X18. After the spawn of the configured executable: an error of the
    spawn itself reaches the caller as it is, with no probe and no
    attach made; and whatever the poll loop saw, an attach that fails is
    logged and replaced by the RuntimeError that asks to close all
    Chrome instances, so the engine's own error is only in the log. *)
Theorem chrome_spawn_outcomes (w : World) (path : string) (s : State) :
  let cmd := chrome_cmd path (config (self s)) in
  (forall msg,
     subprocess_Popen w (trace s) cmd = Failed msg ->
     start_new_chrome w path s =
     (Raise (mkExn OSError msg), record_event (EvPopen cmd) s)) /\
  (forall brk s2 msg,
     subprocess_Popen w (trace s) cmd = Done tt ->
     for_range 10 (chrome_poll_step w) (record_event (EvPopen cmd) s)
       = (Ok brk, s2) ->
     pw_connect_over_cdp w (trace s2) debug_endpoint (Some 20000%Z)
       = Failed msg ->
     start_new_chrome w path s =
     (Raise chrome_debug_mode_error,
      record_event (chrome_start_failure_log msg) (record_event attach s2))) /\
  (forall brk s2 b,
     subprocess_Popen w (trace s) cmd = Done tt ->
     for_range 10 (chrome_poll_step w) (record_event (EvPopen cmd) s)
       = (Ok brk, s2) ->
     pw_connect_over_cdp w (trace s2) debug_endpoint (Some 20000%Z) = Done b ->
     start_new_chrome w path s = (Ok b, record_event attach s2)).
Proof.
  intro cmd. repeat split.
  - intros msg P. unfold start_new_chrome, bind at 1, get_self.
    unfold bind at 1, call. fold cmd. rewrite P. reflexivity.
  - intros brk s2 msg P L A. rewrite (start_new_chrome_unfold w path s P).
    fold cmd. unfold bind at 1. rewrite L.
    exact (final_attach_fails w s2 msg A).
  - intros brk s2 b P L A. rewrite (start_new_chrome_unfold w path s P).
    fold cmd. unfold bind at 1. rewrite L.
    unfold try_except, connect_over_cdp, call. rewrite A. reflexivity.
Qed.

Lemma chrome_spawn_outcomes_witness :
  fst (start_new_chrome unreachable_world "/usr/bin/google-chrome"
         (fresh_state chrome_config)) = Raise chrome_debug_mode_error.
Proof.
  exact (f_equal fst
           (proj1 (proj2 (chrome_spawn_outcomes unreachable_world
                            "/usr/bin/google-chrome"
                            (fresh_state chrome_config)))
              false
              (snd (for_range 10 (chrome_poll_step unreachable_world)
                      (record_event
                         (EvPopen (chrome_cmd "/usr/bin/google-chrome"
                                     chrome_config))
                         (fresh_state chrome_config))))
              "connect ECONNREFUSED" eq_refl eq_refl eq_refl)).
Defined.
